(** * Shadow reconciliation engine of aws-iot-client-py

    A shallow embedding of [equipment_controller.py],
    [shadow_device_controller.py] and the readiness flag of [app.py].

    The Python code talks to two outside parties: the GPIO library
    (RPi.GPIO) and the AWS shadow client.  Every call to one of them is a
    node of a small command tree ([prog]); Python exceptions are the
    [Raise] leaf and [try ... except Exception] is [try_except].  A
    program is run against a world made of the hardware and of the
    transport's answers, and yields its outcome, the new world and the
    list of calls it made.  Log calls are left out: they do not change
    any of the properties below. *)

From Stdlib Require Import String List ZArith Bool Lia.
Import ListNotations.
Local Open Scope string_scope.
Local Open Scope list_scope.
Local Open Scope Z_scope.

Set Implicit Arguments.
Set Warnings "-register-all".

(** ** Python values carried by shadow documents *)

(** What [json.loads] can produce.  Numbers are the integers; other
    numbers are not represented. *)
Inductive pyval : Type :=
| PNone
| PBool (b : bool)
| PInt (z : Z)
| PStr (s : string)
| PList (l : list pyval)
| PDict (d : list (string * pyval)).

(** A Python dict with string keys, in insertion order. *)
Definition dict := list (string * pyval).

Fixpoint dict_get (A : Type) (k : string) (d : list (string * A)) : option A :=
  match d with
  | [] => None
  | (k', v) :: d' => if String.eqb k k' then Some v else dict_get k d'
  end.

Definition dict_mem (A : Type) (k : string) (d : list (string * A)) : bool :=
  match dict_get k d with Some _ => true | None => false end.

(** [d[k] = v]: an existing key keeps its place, a new key goes last. *)
Definition dict_set (k : string) (v : pyval) (d : dict) : dict :=
  if dict_mem k d
  then map (fun kv => if String.eqb k (fst kv) then (k, v) else kv) d
  else d ++ [(k, v)].

Definition keys (A : Type) (d : list (string * A)) : list string := map fst d.

(** Python truth value, as used by [if x], [x or y], [a if x else b]. *)
Definition truthy (v : pyval) : bool :=
  match v with
  | PNone => false
  | PBool b => b
  | PInt z => negb (z =? 0)
  | PStr s => negb (String.eqb s "")
  | PList l => match l with [] => false | _ => true end
  | PDict d => match d with [] => false | _ => true end
  end.

(** Python [==] on these values: [bool] is a subclass of [int], dicts are
    compared without regard to order. *)
Fixpoint py_eq (a b : pyval) {struct a} : bool :=
  match a, b with
  | PNone, PNone => true
  | PBool x, PBool y => Bool.eqb x y
  | PBool x, PInt y => Z.b2z x =? y
  | PInt x, PBool y => x =? Z.b2z y
  | PInt x, PInt y => x =? y
  | PStr x, PStr y => String.eqb x y
  | PList x, PList y =>
      (fix go (l1 l2 : list pyval) : bool :=
         match l1, l2 with
         | [], [] => true
         | v1 :: l1', v2 :: l2' => py_eq v1 v2 && go l1' l2'
         | _, _ => false
         end) x y
  | PDict x, PDict y =>
      (length x =? length y)%nat &&
      (fix all (d1 : list (string * pyval)) : bool :=
         match d1 with
         | [] => true
         | (k, v1) :: d1' =>
             match dict_get k y with
             | Some v2 => py_eq v1 v2
             | None => false
             end && all d1'
         end) x
  | _, _ => false
  end.

(** ** Exceptions *)

Inductive exn : Type :=
| ValueError (msg : string)
| AttributeError
| TransportError.

(** ** The outside world: GPIO and the shadow transport *)

(** [GPIO.LOW] and [GPIO.HIGH]. *)
Inductive level : Type := LOW | HIGH.

Definition level_eqb (a b : level) : bool :=
  match a, b with
  | LOW, LOW | HIGH, HIGH => true
  | _, _ => false
  end.

Definition pin := Z.

(** RPi.GPIO is not part of the repository: the hardware is any state
    with a write ([GPIO.output]) and a read ([GPIO.input]) per pin. *)
Class Gpio (HW : Type) : Type := {
  gpio_output : HW -> pin -> level -> HW;
  gpio_input : HW -> pin -> level
}.

Inductive topic : Type := TDelta | TGetAccepted | TUpdateAccepted.

(** The calls a program makes, with what came back. *)
Inductive event : Type :=
| EvOutput (p : pin) (l : level)
| EvInput (p : pin) (l : level)
| EvPublish (reported : dict) (acked : bool)
| EvGetShadow (acked : bool)
| EvSubscribe (t : topic) (acked : bool).

(** ** Programs *)

(** One node per outside call.  The two publishing calls stand for the
    request together with [future.result(timeout=10)]: the answer [true]
    is the acknowledgment, [false] any failure or the timeout, which
    Python raises as an exception.  [Subscribe] is the request alone,
    handed the answer the transport will give it. *)
Inductive prog (A : Type) : Type :=
| Ret (a : A)
| Raise (e : exn)
| GpioOutput (p : pin) (l : level) (k : prog A)
| GpioInput (p : pin) (k : level -> prog A)
| PublishUpdateShadow (reported : dict) (k : bool -> prog A)
| PublishGetShadow (k : bool -> prog A)
| Subscribe (t : topic) (k : bool -> prog A).

Arguments Raise {A} e.

Fixpoint bind (A B : Type) (m : prog A) (f : A -> prog B) : prog B :=
  match m with
  | Ret a => f a
  | Raise e => Raise e
  | GpioOutput p l k => GpioOutput p l (bind k f)
  | GpioInput p k => GpioInput p (fun v => bind (k v) f)
  | PublishUpdateShadow r k => PublishUpdateShadow r (fun ok => bind (k ok) f)
  | PublishGetShadow k => PublishGetShadow (fun ok => bind (k ok) f)
  | Subscribe t k => Subscribe t (fun ok => bind (k ok) f)
  end.

(** [try: m  except Exception as e: h e]. *)
Fixpoint try_except (A : Type) (m : prog A) (h : exn -> prog A) : prog A :=
  match m with
  | Ret a => Ret a
  | Raise e => h e
  | GpioOutput p l k => GpioOutput p l (try_except k h)
  | GpioInput p k => GpioInput p (fun v => try_except (k v) h)
  | PublishUpdateShadow r k =>
      PublishUpdateShadow r (fun ok => try_except (k ok) h)
  | PublishGetShadow k => PublishGetShadow (fun ok => try_except (k ok) h)
  | Subscribe t k => Subscribe t (fun ok => try_except (k ok) h)
  end.

Declare Scope prog_scope.
Delimit Scope prog_scope with prog.
Notation "x <- m ;; k" := (bind m (fun x => k))
  (at level 61, m at next level, right associativity) : prog_scope.
Notation "m ;; k" := (bind m (fun _ => k))
  (at level 61, right associativity) : prog_scope.
Local Open Scope prog_scope.

(** [for x in xs: acc = body acc x], stopping at the first exception. *)
Fixpoint for_each (A X : Type) (body : A -> X -> prog A) (xs : list X) (acc : A)
  : prog A :=
  match xs with
  | [] => Ret acc
  | x :: xs' => acc' <- body acc x ;; for_each body xs' acc'
  end.

(** A transport answer: [future.result(timeout=10)] returns or raises. *)
Definition result_or_raise (acked : bool) : prog unit :=
  if acked then Ret tt else Raise TransportError.

(** ** Running a program *)

Inductive outcome (A : Type) : Type :=
| Returned (a : A)
| Raised (e : exn).

Arguments Raised {A} e.

(** The hardware, and the answers the transport will give to the coming
    requests (none left: the request times out). *)
Record World (HW : Type) : Type := mkWorld {
  hw : HW;
  acks : list bool
}.

Record result (HW A : Type) : Type := mkResult {
  value : outcome A;
  world : World HW;
  events : list event
}.

Definition next_ack (l : list bool) : bool * list bool :=
  match l with
  | [] => (false, [])
  | b :: l' => (b, l')
  end.

Section Run.
Context {HW : Type} `{Gpio HW}.

Definition emit (A : Type) (e : event) (r : result HW A) : result HW A :=
  mkResult (value r) (world r) (e :: events r).

Fixpoint run (A : Type) (m : prog A) (w : World HW) : result HW A :=
  match m with
  | Ret a => mkResult (Returned a) w []
  | Raise e => mkResult (Raised e) w []
  | GpioOutput p l k =>
      emit (EvOutput p l) (run k (mkWorld (gpio_output (hw w) p l) (acks w)))
  | GpioInput p k =>
      let v := gpio_input (hw w) p in
      emit (EvInput p v) (run (k v) w)
  | PublishUpdateShadow r k =>
      let (ok, rest) := next_ack (acks w) in
      emit (EvPublish r ok) (run (k ok) (mkWorld (hw w) rest))
  | PublishGetShadow k =>
      let (ok, rest) := next_ack (acks w) in
      emit (EvGetShadow ok) (run (k ok) (mkWorld (hw w) rest))
  | Subscribe t k =>
      let (ok, rest) := next_ack (acks w) in
      emit (EvSubscribe t ok) (run (k ok) (mkWorld (hw w) rest))
  end.

(** Running [m] and then, if it returned, [f] on its value. *)
Definition and_then (A B : Type) (r : result HW A)
    (f : A -> World HW -> result HW B) : result HW B :=
  match value r with
  | Returned a =>
      let r' := f a (world r) in
      mkResult (value r') (world r') (events r ++ events r')
  | Raised e => mkResult (Raised e) (world r) (events r)
  end.

(** Running [m] and then, if it raised, the handler. *)
Definition or_else (A : Type) (r : result HW A)
    (h : exn -> World HW -> result HW A) : result HW A :=
  match value r with
  | Returned a => mkResult (Returned a) (world r) (events r)
  | Raised e =>
      let r' := h e (world r) in
      mkResult (value r') (world r') (events r ++ events r')
  end.
End Run.

(** ** equipment_controller.py *)

Record equipment : Type := mkEquipment {
  eq_pin : pin;
  eq_name : string
}.

Definition equipment_config : list (string * equipment) :=
  [ ("blower", mkEquipment 17 "Blower");
    ("vibrofeeder", mkEquipment 27 "Vibrofeeder") ].

Definition unknown_equipment (equipment_type : string) : exn :=
  ValueError ("Unknown equipment type: " ++ equipment_type)%string.

(** [{'is_active': b}] *)
Definition state_obj (b : bool) : pyval := PDict [("is_active", PBool b)].

Definition get_state (equipment_type : string) : prog bool :=
  match dict_get equipment_type equipment_config with
  | None => Raise (unknown_equipment equipment_type)
  | Some cfg =>
      GpioInput (eq_pin cfg) (fun gpio_value => Ret (level_eqb gpio_value LOW))
  end.

(** Active-low relays: LOW = ON, HIGH = OFF.  [is_active] is whatever
    the caller passes; the conditional expression takes its truth value. *)
Definition set_state (equipment_type : string) (is_active : pyval) : prog bool :=
  match dict_get equipment_type equipment_config with
  | None => Raise (unknown_equipment equipment_type)
  | Some cfg =>
      let gpio_value := if truthy is_active then LOW else HIGH in
      GpioOutput (eq_pin cfg) gpio_value (get_state equipment_type)
  end.

Definition get_all_states : prog dict :=
  for_each
    (fun states (entry : string * equipment) =>
       let equipment_type := fst entry in
       is_active <- get_state equipment_type ;;
       Ret (dict_set equipment_type (state_obj is_active) states))
    equipment_config [].

(** ** shadow_device_controller.py *)

(** [obj.get(key, default)]: only a dict has the method. *)
Definition py_get (obj : pyval) (key : string) (default : pyval) : prog pyval :=
  match obj with
  | PDict d =>
      Ret (match dict_get key d with Some v => v | None => default end)
  | _ => Raise AttributeError
  end.

(** [equipment_type in ['blower', 'vibrofeeder']] *)
Definition is_equipment_kind (equipment_type : string) : bool :=
  existsb (String.eqb equipment_type) ["blower"; "vibrofeeder"].

(** The answer [false] of the request covers every exception of the two
    calls (no shadow client yet, transport failure, timeout); the handler
    logs it and the method returns normally. *)
Definition _update_shadow_reported_state (states : dict) : prog unit :=
  try_except
    (PublishUpdateShadow states result_or_raise)
    (fun _ => Ret tt).

(** The body of the loop of [_process_shadow_delta]. *)
Definition process_delta_item (updated_states : dict) (item : string * pyval)
  : prog dict :=
  let (equipment_type, desired_state) := item in
  if is_equipment_kind equipment_type then
    desired_active <- py_get desired_state "is_active" (PBool false) ;;
    actual_state <- set_state equipment_type desired_active ;;
    verified_state <- get_state equipment_type ;;
    Ret (dict_set equipment_type (state_obj verified_state) updated_states)
  else Ret updated_states.

Definition _process_shadow_delta (delta_state : dict) : prog unit :=
  try_except
    (updated_states <- for_each process_delta_item delta_state [] ;;
     if truthy (PDict updated_states)
     then _update_shadow_reported_state updated_states
     else Ret tt)
    (fun _ => Ret tt).

Definition _on_shadow_delta_updated (delta_state : dict) : prog unit :=
  try_except (_process_shadow_delta delta_state) (fun _ => Ret tt).

(** [response.state] of a get-shadow response. *)
Record ShadowState : Type := mkShadowState {
  desired : option dict;
  reported : option dict
}.

(** [x or {}]: a section that is missing or empty counts as empty. *)
Definition or_empty (x : option dict) : dict :=
  match x with
  | Some d => if truthy (PDict d) then d else []
  | None => []
  end.

(** The body of the loop of [_on_get_shadow_accepted]. *)
Definition pending_desired_item (current_reported : dict) (_ : unit)
    (item : string * pyval) : prog unit :=
  let (equipment_type, desired_state) := item in
  if is_equipment_kind equipment_type then
    current_state <-
      Ret (match dict_get equipment_type current_reported with
           | Some v => v
           | None => PDict []
           end) ;;
    wanted <- py_get desired_state "is_active" PNone ;;
    known <- py_get current_state "is_active" PNone ;;
    if negb (py_eq wanted known)
    then _process_shadow_delta [(equipment_type, desired_state)]
    else Ret tt
  else Ret tt.

Definition _on_get_shadow_accepted (response_state : option ShadowState)
  : prog unit :=
  try_except
    (match response_state with
     | Some state =>
         match desired state with
         | Some wanted =>
             if truthy (PDict wanted) then
               let current_reported := or_empty (reported state) in
               for_each (pending_desired_item current_reported) wanted tt
             else Ret tt
         | None => Ret tt
         end
     | None => Ret tt
     end)
    (fun _ => Ret tt).

Definition _get_shadow_document : prog unit :=
  try_except (PublishGetShadow result_or_raise) (fun _ => Ret tt).

Definition _sync_shadow_with_hardware : prog unit :=
  try_except
    (current_states <- get_all_states ;;
     _update_shadow_reported_state current_states ;;
     _get_shadow_document)
    (fun _ => Ret tt).

(** What the shadow client's [subscribe_to_...] methods return once the
    request is sent: a pair of the future and the topic name, not the
    future.  The code binds that pair to [delta_future], [get_future]
    and [update_future]. *)
Inductive subscription : Type :=
| FutureAndTopic (acked : bool) (t : topic).

Definition subscribe (t : topic) : prog subscription :=
  Subscribe t (fun acked => Ret (FutureAndTopic acked t)).

(** [x.result(timeout=10)] on such a pair: a tuple has no attribute
    [result], so Python raises [AttributeError] whatever the future
    holds. *)
Definition result_of (x : subscription) : prog unit :=
  Raise AttributeError.

Definition _subscribe_to_shadow_topics : prog unit :=
  try_except
    (delta_future <- subscribe TDelta ;;
     result_of delta_future ;;
     get_future <- subscribe TGetAccepted ;;
     result_of get_future ;;
     update_future <- subscribe TUpdateAccepted ;;
     result_of update_future)
    (fun _ => Ret tt).

Definition _initialize_shadow_client : prog unit :=
  try_except
    (_subscribe_to_shadow_topics ;;
     _sync_shadow_with_hardware)
    (fun _ => Ret tt).

Definition update_equipment_state_and_shadow (equipment_type : string)
    (is_active : bool) : prog bool :=
  try_except
    (actual_state <- set_state equipment_type (PBool is_active) ;;
     _update_shadow_reported_state
       [(equipment_type, state_obj actual_state)] ;;
     Ret actual_state)
    (fun _ => get_state equipment_type).

Definition get_equipment_states : prog dict := get_all_states.

(** ** Two pieces of hardware *)

(** Output latches that hold what was written last; a pin never written
    reads [HIGH], the level [_setup_gpio] gives every pin. *)
Definition latches := list (pin * level).

Fixpoint latch_read (h : latches) (p : pin) : level :=
  match h with
  | [] => HIGH
  | (q, l) :: h' => if q =? p then l else latch_read h' p
  end.

Fixpoint latch_write (h : latches) (p : pin) (l : level) : latches :=
  match h with
  | [] => [(p, l)]
  | (q, l') :: h' =>
      if q =? p then (q, l) :: h' else (q, l') :: latch_write h' p l
  end.

#[export] Instance latches_gpio : Gpio latches := {
  gpio_output := latch_write;
  gpio_input := latch_read
}.

(** Relays that cannot energize: every write is lost, every pin reads
    [HIGH]. *)
Inductive dead_relays : Type := DeadRelays.

#[export] Instance dead_relays_gpio : Gpio dead_relays := {
  gpio_output := fun h _ _ => h;
  gpio_input := fun _ _ => HIGH
}.

(** ** app.py: the readiness flag *)

(** [EquipmentController._setup_gpio]: every configured pin is driven
    HIGH, that is off. *)
Definition _setup_gpio : prog unit :=
  for_each
    (fun _ (entry : string * equipment) =>
       GpioOutput (eq_pin (snd entry)) HIGH (Ret tt))
    equipment_config tt.

(** Where [initialize_shadow_controller] stands: not called yet; inside
    [start], the client started and [time.sleep(5)] running; [start]
    returned [True]; [start] returned [False]. *)
Inductive phase : Type := NotStarted | Waiting | Started | StartFailed.

Record App (HW : Type) : Type := mkApp {
  app_phase : phase;
  startup_complete : bool;
  app_world : World HW;
  app_calls : list event
}.

(** What happens to the process.  The connection callbacks and the
    shadow messages come from the client's own thread, at any time once
    the client is started; [client_ok] tells whether [_create_client] and
    [client.start] went through. *)
Inductive input : Type :=
| InitBegin (client_ok : bool)
| WaitElapsed
| ConnectionSuccess
| ConnectionFailure
| Disconnection
| DeltaUpdated (delta : dict)
| GetShadowAccepted (response_state : option ShadowState)
| ControlRequest (equipment_type : string) (is_active : bool).

Section Application.
Context {HW : Type} `{Gpio HW}.

Definition perform (A : Type) (m : prog A) (s : App HW) : App HW :=
  let r := run m (app_world s) in
  mkApp (app_phase s) (startup_complete s) (world r) (app_calls s ++ events r).

Definition client_started (s : App HW) : bool :=
  match app_phase s with
  | Waiting | Started => true
  | _ => false
  end.

Definition app_step (s : App HW) (i : input) : App HW :=
  match i with
  | InitBegin client_ok =>
      match app_phase s with
      | NotStarted =>
          let s' := perform _setup_gpio s in
          mkApp (if client_ok then Waiting else StartFailed)
            (startup_complete s') (app_world s') (app_calls s')
      | _ => s
      end
  | WaitElapsed =>
      match app_phase s with
      | Waiting => mkApp Started true (app_world s) (app_calls s)
      | _ => s
      end
  | ConnectionSuccess =>
      if client_started s then perform _initialize_shadow_client s else s
  | ConnectionFailure => s
  | Disconnection => s
  | DeltaUpdated delta =>
      if client_started s then perform (_on_shadow_delta_updated delta) s
      else s
  | GetShadowAccepted response_state =>
      if client_started s
      then perform (_on_get_shadow_accepted response_state) s
      else s
  | ControlRequest equipment_type is_active =>
      match app_phase s with
      | NotStarted => s
      | _ =>
          if is_equipment_kind equipment_type
          then perform
                 (update_equipment_state_and_shadow equipment_type is_active) s
          else s
      end
  end.

Definition app_run (inputs : list input) (s : App HW) : App HW :=
  fold_left app_step inputs s.

Definition app_init (w : World HW) : App HW := mkApp NotStarted false w [].

End Application.

(** ** Two callers at once *)

(** Delta events arrive on the thread of the MQTT client, control
    requests on a request thread of the web server.  Neither
    [shadow_device_controller.py] nor [equipment_controller.py] takes a
    lock, so the calls of two operations may alternate in any order; the
    Python code between two calls touches nothing shared. *)
Inductive thread : Type := DeltaThread | ApiThread.

Section Interleaving.
Context {HW : Type} `{Gpio HW}.

(** The next outside call of a program, if it has one. *)
Definition step1 (A : Type) (m : prog A) (w : World HW)
  : option (event * prog A * World HW) :=
  match m with
  | Ret _ | Raise _ => None
  | GpioOutput p l k =>
      Some (EvOutput p l, k, mkWorld (gpio_output (hw w) p l) (acks w))
  | GpioInput p k =>
      let v := gpio_input (hw w) p in Some (EvInput p v, k v, w)
  | PublishUpdateShadow r k =>
      let (ok, rest) := next_ack (acks w) in
      Some (EvPublish r ok, k ok, mkWorld (hw w) rest)
  | PublishGetShadow k =>
      let (ok, rest) := next_ack (acks w) in
      Some (EvGetShadow ok, k ok, mkWorld (hw w) rest)
  | Subscribe t k =>
      let (ok, rest) := next_ack (acks w) in
      Some (EvSubscribe t ok, k ok, mkWorld (hw w) rest)
  end.

(** Two programs on one world, the schedule saying whose call comes
    next; a turn given to a finished program is lost. *)
Fixpoint interleave (A B : Type) (sched : list thread)
    (m1 : prog A) (m2 : prog B) (w : World HW)
  : list (thread * event) * World HW :=
  match sched with
  | [] => ([], w)
  | DeltaThread :: sched' =>
      match step1 m1 w with
      | Some (e, m1', w') =>
          let (tr, fin) := interleave sched' m1' m2 w' in
          ((DeltaThread, e) :: tr, fin)
      | None => interleave sched' m1 m2 w
      end
  | ApiThread :: sched' =>
      match step1 m2 w with
      | Some (e, m2', w') =>
          let (tr, fin) := interleave sched' m1 m2' w' in
          ((ApiThread, e) :: tr, fin)
      | None => interleave sched' m1 m2 w
      end
  end.

(** A program that has run to its end. *)
Definition finished (A : Type) (o : outcome A) : prog A :=
  match o with
  | Returned a => Ret a
  | Raised e => Raise e
  end.

(** One operation after the other, as a schedule. *)
Definition delta_then_api (A B : Type) (m1 : prog A) (m2 : prog B)
    (w : World HW) : list thread :=
  repeat DeltaThread (length (events (run m1 w)))
  ++ repeat ApiThread (length (events (run m2 (world (run m1 w))))).

Definition api_then_delta (A B : Type) (m1 : prog A) (m2 : prog B)
    (w : World HW) : list thread :=
  repeat ApiThread (length (events (run m2 w)))
  ++ repeat DeltaThread (length (events (run m1 (world (run m2 w))))).

End Interleaving.

(** * The words of the properties *)

(** A world to try things on: latches as [_setup_gpio] leaves them, and a
    transport that acknowledges the first two requests only. *)
Definition bench : World latches := mkWorld [(17, HIGH); (27, HIGH)] [true; true].

(** The level [set_state] writes for a requested boolean. *)
Definition level_of (is_active : bool) : level :=
  if is_active then LOW else HIGH.

(** What [desired_state.get('is_active', False)] yields on a dict. *)
Definition desired_active (d : dict) : pyval :=
  match dict_get "is_active" d with
  | Some v => v
  | None => PBool false
  end.

Definition is_gpio (e : event) : Prop :=
  match e with
  | EvOutput _ _ | EvInput _ _ => True
  | _ => False
  end.

(** The payloads of the reported-state publishes among some calls. *)
Definition published (evs : list event) : list dict :=
  flat_map (fun e => match e with EvPublish r _ => [r] | _ => [] end) evs.

Definition valid_item (item : string * pyval) : bool :=
  is_equipment_kind (fst item).

Section Batch.
Context {HW : Type} `{Gpio HW}.

Definition delta_loop (delta : dict) (acc : dict) (w : World HW)
  : result HW dict :=
  run (for_each process_delta_item delta acc) w.

(** What [_process_shadow_delta] makes of the loop's result. *)
Definition finish_batch (loop : result HW dict) : result HW unit :=
  match value loop with
  | Returned ((_ :: _) as updated) =>
      let (ok, rest) := next_ack (acks (world loop)) in
      mkResult (Returned tt) (mkWorld (hw (world loop)) rest)
        (events loop ++ [EvPublish updated ok])
  | _ => mkResult (Returned tt) (world loop) (events loop)
  end.

End Batch.

(** Among the calls [evs], the value [v] reported for kind [k] was read
    from the kind's pin by [get_state], and the pin was not written
    between that read and the end of [evs]. *)
Definition read_back_of (evs : list event) (k : string) (v : pyval) : Prop :=
  exists cfg lvl before after,
    dict_get k equipment_config = Some cfg /\
    v = state_obj (level_eqb lvl LOW) /\
    evs = before ++ EvInput (eq_pin cfg) lvl :: after /\
    forall l, ~ In (EvOutput (eq_pin cfg) l) after.

(** Every reported-state publish among [evs] carries, for each kind, a
    value read back before the publish. *)
Definition publishes_read_back (evs : list event) : Prop :=
  forall before reported acked after,
    evs = before ++ EvPublish reported acked :: after ->
    forall k v, In (k, v) reported -> read_back_of before k v.

(** The desired boolean in the specification's words: the boolean
    [is_active] of the payload, and false when the field is absent or the
    payload is malformed. *)
Definition spec_desired (payload : pyval) : bool :=
  match payload with
  | PDict d =>
      match dict_get "is_active" d with
      | Some (PBool b) => b
      | _ => false
      end
  | _ => false
  end.

(** A batch in which the payload of every valid key is replaced by the
    well-formed object that carries its [spec_desired] boolean. *)
Definition normalize_item (item : string * pyval) : string * pyval :=
  if is_equipment_kind (fst item)
  then (fst item, state_obj (spec_desired (snd item)))
  else item.

Definition normalized (delta : dict) : dict := map normalize_item delta.

(** [x.get('is_active')] on an object, [None] when the field is absent. *)
Definition is_active_of (v : pyval) : pyval :=
  match v with
  | PDict d =>
      match dict_get "is_active" d with
      | Some x => x
      | None => PNone
      end
  | _ => PNone
  end.

(** The kinds to reconcile in the specification's words: present in both
    sections, with different [is_active] values. *)
Definition differs_in_both (rep : dict) (item : string * pyval) : bool :=
  is_equipment_kind (fst item) &&
  match dict_get (fst item) rep with
  | Some current => negb (py_eq (is_active_of (snd item)) (is_active_of current))
  | None => false
  end.

(** The kinds to reconcile as the handler finds them: present in the
    desired section, with an [is_active] different from the reported
    one, a kind that is not reported standing for an empty object. *)
Definition pending (rep : dict) (item : string * pyval) : bool :=
  is_equipment_kind (fst item) &&
  negb (py_eq (is_active_of (snd item))
          (is_active_of
             (match dict_get (fst item) rep with
              | Some current => current
              | None => PDict []
              end))).

(** One reconciliation cycle per item, each a delta batch of its own. *)
Definition reconcile_each (items : dict) : prog unit :=
  for_each (fun _ item => _process_shadow_delta [item]) items tt.

Definition objects_for_kinds (d : dict) : Prop :=
  forall k v, In (k, v) d -> is_equipment_kind k = true ->
              exists o, v = PDict o.

(** Some thread writes a pin and later reads it, and the other thread
    writes the same pin in between. *)
Definition interleaved (tr : list (thread * event)) : Prop :=
  exists i j k t t' p l l' v,
    (i < j < k)%nat /\ t <> t' /\
    nth_error tr i = Some (t, EvOutput p l) /\
    nth_error tr j = Some (t', EvOutput p l') /\
    nth_error tr k = Some (t, EvInput p v).

(** * The rest of the code *)

(** ** equipment_controller.py, continued *)

(** [get_equipment_info]: name, pin and state of every kind. *)
Definition get_equipment_info : prog dict :=
  for_each
    (fun info (entry : string * equipment) =>
       let (equipment_type, config) := entry in
       is_active <- get_state equipment_type ;;
       Ret (dict_set equipment_type
              (PDict [ ("name", PStr (eq_name config));
                       ("pin", PInt (eq_pin config));
                       ("is_active", PBool is_active) ])
              info))
    equipment_config [].

(** [cleanup]: every kind is switched off.  The [GPIO.cleanup()] that
    follows hands the pins back to the library and has no counterpart
    here, as [GPIO.setmode] and [GPIO.setup] have none in [_setup_gpio]. *)
Definition cleanup : prog unit :=
  for_each
    (fun _ (entry : string * equipment) =>
       set_state (fst entry) (PBool false) ;; Ret tt)
    equipment_config tt.

(** ** shadow_device_controller.py, continued *)

(** [_setup_shadow_topics]: the seven topic names of a shadow. *)
Definition _setup_shadow_topics (shadow_name : string)
  : list (string * string) :=
  [ ("get", "$aws/things/" ++ shadow_name ++ "/shadow/get");
    ("get_accepted", "$aws/things/" ++ shadow_name ++ "/shadow/get/accepted");
    ("get_rejected", "$aws/things/" ++ shadow_name ++ "/shadow/get/rejected");
    ("update", "$aws/things/" ++ shadow_name ++ "/shadow/update");
    ("update_accepted",
     "$aws/things/" ++ shadow_name ++ "/shadow/update/accepted");
    ("update_rejected",
     "$aws/things/" ++ shadow_name ++ "/shadow/update/rejected");
    ("update_delta", "$aws/things/" ++ shadow_name ++ "/shadow/update/delta")
  ]%string.

(** ** app.py, continued: the request handlers *)

(** What a handler answers: the HTTP status, the [error] text of a
    refusal and the [data] of a success (the timestamp is left out). *)
Record response : Type := mkResponse {
  status : Z;
  error : string;
  data : option pyval
}.

(** [key in x]: on a dict the keys, on a list the elements, on a string
    the substrings; anything else is not iterable and Python raises
    [TypeError], here [None]. *)
Definition py_in (key : string) (x : pyval) : option bool :=
  match x with
  | PDict d => Some (dict_mem key d)
  | PList l => Some (existsb (py_eq (PStr key)) l)
  | PStr s =>
      Some (match String.index 0 key s with Some _ => true | None => false end)
  | _ => None
  end.

(** [x[key]] for a string key: only a dict can be indexed so, and the
    key must be there; every other case raises, here [None]. *)
Definition py_item (x : pyval) (key : string) : option pyval :=
  match x with
  | PDict d => dict_get key d
  | _ => None
  end.

(** [v in ['blower', 'vibrofeeder']] for an arbitrary value. *)
Definition in_equipment_kinds (v : pyval) : bool :=
  existsb (py_eq v) [PStr "blower"; PStr "vibrofeeder"].

Definition service_unavailable : response :=
  mkResponse 503 "Shadow controller not initialized" None.

Definition bad_request (why : string) : response := mkResponse 400 why None.

Definition server_error (why : string) : response := mkResponse 500 why None.

(** The name of the kind when [v] is one of the two strings. *)
Definition kind_name (v : pyval) : string :=
  match v with PStr s => s | _ => "" end.

(** [control_equipment]: [shadow_controller] tells whether the global is
    set, [body] is what [request.get_json()] returned.  An exception
    anywhere in the handler, the [TypeError]s above included, is answered
    with status 500. *)
Definition control_equipment (shadow_controller : bool) (body : pyval)
  : prog response :=
  try_except
    (if negb shadow_controller then Ret service_unavailable
     else if negb (truthy body) then Ret (bad_request "No data provided")
     else
       match py_in "equipment_type" body with
       | None => Ret (server_error "Failed to control equipment")
       | Some false => Ret (bad_request "Missing required fields")
       | Some true =>
           match py_in "is_active" body with
           | None => Ret (server_error "Failed to control equipment")
           | Some false => Ret (bad_request "Missing required fields")
           | Some true =>
               match py_item body "equipment_type",
                     py_item body "is_active" with
               | Some equipment_type, Some requested =>
                   let is_active := truthy requested in
                   if negb (in_equipment_kinds equipment_type)
                   then Ret (bad_request "Invalid equipment type")
                   else
                     actual_state <-
                       update_equipment_state_and_shadow
                         (kind_name equipment_type) is_active ;;
                     Ret (mkResponse 200 ""
                            (Some (PDict
                                     [ ("equipment_type", equipment_type);
                                       ("requested_state", PBool is_active);
                                       ("actual_state", PBool actual_state) ])))
               | _, _ => Ret (server_error "Failed to control equipment")
               end
           end
       end)
    (fun _ => Ret (server_error "Failed to control equipment")).

(** [get_equipment_status]. *)
Definition get_equipment_status (shadow_controller : bool) : prog response :=
  try_except
    (if negb shadow_controller then Ret service_unavailable
     else
       states <- get_equipment_states ;;
       Ret (mkResponse 200 "" (Some (PDict [("equipment", PDict states)]))))
    (fun _ => Ret (server_error "Failed to get equipment status")).

Section Health.
Context {HW : Type} `{Gpio HW}.

(** The global [shadow_controller] is set as soon as
    [initialize_shadow_controller] has built the controller. *)
Definition shadow_controller_set (s : App HW) : bool :=
  match app_phase s with
  | NotStarted => false
  | _ => true
  end.

(** The [status] of [health_check]. *)
Definition health_check (s : App HW) : string :=
  if startup_complete s && shadow_controller_set s
  then "healthy" else "initializing".
End Health.

(** ** Hardware that behaves *)

(** A pin reads what was last written to it. *)
Definition reads_back_writes (HW : Type) `{Gpio HW} : Prop :=
  forall (h : HW) (p : pin) (l : level),
    gpio_input (gpio_output h p l) p = l.

(** A write leaves the reading of every other pin as it was. *)
Definition writes_are_local (HW : Type) `{Gpio HW} : Prop :=
  forall (h : HW) (p q : pin) (l : level),
    p <> q -> gpio_input (gpio_output h q l) p = gpio_input h p.

Arguments reads_back_writes HW {_}.
Arguments writes_are_local HW {_}.

(** ** More words for the properties *)

(** The value reported for [k] is what the pin of [k] reads in [w]. *)
Definition current_reading (HW : Type) `{Gpio HW} (w : World HW)
    (k : string) (v : pyval) : Prop :=
  exists cfg,
    dict_get k equipment_config = Some cfg /\
    v = state_obj (level_eqb (gpio_input (hw w) (eq_pin cfg)) LOW).

(** What a delta item asks for: the truth value of its [is_active], false
    when the field is absent. *)
Definition requested_state (item : string * pyval) : string * pyval :=
  (fst item,
   state_obj (truthy (match snd item with
                      | PDict d => desired_active d
                      | _ => PBool false
                      end))).

(** Every kind reported inactive. *)
Definition all_off : dict :=
  [("blower", state_obj false); ("vibrofeeder", state_obj false)].

(** * Properties *)

(** ** Running composed programs *)

Section RunLemmas.
Context {HW : Type} `{Gpio HW}.

Lemma run_bind (A B : Type) (m : prog A) (f : A -> prog B) (w : World HW) :
  run (bind m f) w = and_then (run m w) (fun a => run (f a)).
Proof.
  revert w.
  induction m as [a | e | p l k IH | p k IH | r k IH | k IH | t k IH];
    intros w; simpl.
  - unfold and_then; simpl. now destruct (run (f a) w).
  - reflexivity.
  - rewrite IH. unfold and_then, emit; simpl.
    now destruct (value (run k _)).
  - rewrite IH. unfold and_then, emit; simpl.
    now destruct (value (run (k _) _)).
  - destruct (next_ack (acks w)) as [ok rest]. rewrite IH.
    unfold and_then, emit; simpl. now destruct (value (run (k _) _)).
  - destruct (next_ack (acks w)) as [ok rest]. rewrite IH.
    unfold and_then, emit; simpl. now destruct (value (run (k _) _)).
  - destruct (next_ack (acks w)) as [ok rest]. rewrite IH.
    unfold and_then, emit; simpl. now destruct (value (run (k _) _)).
Qed.

Lemma run_try_except (A : Type) (m : prog A) (h : exn -> prog A)
    (w : World HW) :
  run (try_except m h) w = or_else (run m w) (fun e => run (h e)).
Proof.
  revert w.
  induction m as [a | e | p l k IH | p k IH | r k IH | k IH | t k IH];
    intros w; simpl.
  - reflexivity.
  - unfold or_else; simpl. now destruct (run (h e) w).
  - rewrite IH. unfold or_else, emit; simpl.
    now destruct (value (run k _)).
  - rewrite IH. unfold or_else, emit; simpl.
    now destruct (value (run (k _) _)).
  - destruct (next_ack (acks w)) as [ok rest]. rewrite IH.
    unfold or_else, emit; simpl. now destruct (value (run (k _) _)).
  - destruct (next_ack (acks w)) as [ok rest]. rewrite IH.
    unfold or_else, emit; simpl. now destruct (value (run (k _) _)).
  - destruct (next_ack (acks w)) as [ok rest]. rewrite IH.
    unfold or_else, emit; simpl. now destruct (value (run (k _) _)).
Qed.
End RunLemmas.

(** ** The two kinds of equipment *)

Lemma is_equipment_kind_true (k : string) :
  is_equipment_kind k = true <-> k = "blower" \/ k = "vibrofeeder".
Proof.
  unfold is_equipment_kind; simpl. rewrite !orb_true_iff, !String.eqb_eq.
  intuition discriminate.
Qed.

Lemma unknown_kind_not_configured (k : string) :
  is_equipment_kind k = false -> dict_get k equipment_config = None.
Proof.
  unfold is_equipment_kind; simpl. rewrite !orb_false_iff.
  intros (-> & -> & _). reflexivity.
Qed.

Lemma known_kind_configured (k : string) :
  is_equipment_kind k = true ->
  exists cfg, dict_get k equipment_config = Some cfg.
Proof.
  intros Hk. apply is_equipment_kind_true in Hk as [-> | ->]; simpl; eauto.
Qed.

(** ** The control path *)

(** C10.  For an identifier that is neither blower nor vibrofeeder,
    [update_equipment_state_and_shadow] does not return a boolean: the
    write raises the unknown-equipment [ValueError], the handler's
    fall-back read raises it again, and that is what the caller gets; the
    hardware and the transport are not touched. *)
Theorem update_unknown_kind_raises (HW : Type) `{Gpio HW}
    (k : string) (d : bool) (w : World HW) :
  is_equipment_kind k = false ->
  value (run (set_state k (PBool d)) w) = Raised (unknown_equipment k) /\
  value (run (get_state k) w) = Raised (unknown_equipment k) /\
  run (update_equipment_state_and_shadow k d) w
  = mkResult (Raised (unknown_equipment k)) w [].
Proof.
  intros Hk. apply unknown_kind_not_configured in Hk.
  unfold update_equipment_state_and_shadow, set_state, get_state.
  rewrite Hk. simpl. auto.
Qed.

Lemma update_unknown_kind_raises_witness :
  is_equipment_kind "fan" = false /\
  run (update_equipment_state_and_shadow "fan" true) bench
  = mkResult (Raised (unknown_equipment "fan")) bench [].
Proof.
  split; [reflexivity |].
  apply (update_unknown_kind_raises "fan" true bench). reflexivity.
Defined.

(** C2.  For a valid kind and any boolean, the control path writes the
    requested level, reads the pin back and returns what it read; a
    [get_state] of that kind right afterwards observes the same value.
    This holds for every transport, so also when the publish of the
    reported state fails or times out. *)
Theorem update_returns_read_back (HW : Type) `{Gpio HW}
    (k : string) (d : bool) (w : World HW) :
  is_equipment_kind k = true ->
  exists cfg actual,
    let r := run (update_equipment_state_and_shadow k d) w in
    dict_get k equipment_config = Some cfg /\
    value r = Returned actual /\
    hw (world r) = gpio_output (hw w) (eq_pin cfg) (level_of d) /\
    events r =
      [ EvOutput (eq_pin cfg) (level_of d);
        EvInput (eq_pin cfg) (gpio_input (hw (world r)) (eq_pin cfg));
        EvPublish [(k, state_obj actual)] (fst (next_ack (acks w))) ] /\
    actual = level_eqb (gpio_input (hw (world r)) (eq_pin cfg)) LOW /\
    value (run (get_state k) (world r)) = Returned actual.
Proof.
  intros Hk. apply is_equipment_kind_true in Hk.
  destruct Hk as [-> | ->];
    [ exists (mkEquipment 17 "Blower"),
        (level_eqb (gpio_input (gpio_output (hw w) 17 (level_of d)) 17) LOW)
    | exists (mkEquipment 27 "Vibrofeeder"),
        (level_eqb (gpio_input (gpio_output (hw w) 27 (level_of d)) 27) LOW) ];
    cbv zeta;
    unfold update_equipment_state_and_shadow, set_state, get_state;
    simpl dict_get; cbv iota beta; simpl;
    destruct (next_ack (acks w)) as [[|] rest]; simpl;
    destruct d; simpl; repeat split; reflexivity.
Qed.

Lemma update_returns_read_back_witness :
  is_equipment_kind "blower" = true /\
  value (run (update_equipment_state_and_shadow "blower" true)
           (mkWorld (hw bench) [])) = Returned true.
Proof.
  split; [reflexivity |].
  destruct (update_returns_read_back "blower" true (mkWorld (hw bench) []))
    as (cfg & actual & Hcfg & Hval & Hhw & _ & Hact & _); [reflexivity |].
  rewrite Hval, Hact, Hhw. injection Hcfg as <-. reflexivity.
Defined.

(** ** Dictionaries *)

Lemma dict_get_none (A : Type) (k : string) (d : list (string * A)) :
  dict_get k d = None <-> ~ In k (keys d).
Proof.
  induction d as [| [k' v] d IH]; simpl.
  - tauto.
  - destruct (String.eqb_spec k k') as [-> | Hne].
    + split; [discriminate | intros Hn; exfalso; auto].
    + rewrite IH. split; [intros Hn [He | Hin]; auto | tauto].
Qed.

Lemma dict_mem_false (A : Type) (k : string) (d : list (string * A)) :
  dict_mem k d = false <-> ~ In k (keys d).
Proof.
  unfold dict_mem. rewrite <- dict_get_none.
  destruct (dict_get k d); split; congruence.
Qed.

Lemma dict_set_new (k : string) (v : pyval) (d : dict) :
  ~ In k (keys d) -> dict_set k v d = d ++ [(k, v)].
Proof.
  intros Hk. apply dict_mem_false in Hk. unfold dict_set. now rewrite Hk.
Qed.

Lemma dict_set_in (k0 : string) (v0 : pyval) (d : dict) (k : string) (v : pyval) :
  In (k, v) (dict_set k0 v0 d) ->
  (k = k0 /\ v = v0) \/ (k <> k0 /\ In (k, v) d).
Proof.
  unfold dict_set. destruct (dict_mem k0 d) eqn:Hmem.
  - rewrite in_map_iff. intros ([k' v'] & Heq & Hin). simpl in Heq.
    destruct (String.eqb_spec k0 k') as [-> | Hne].
    + injection Heq as <- <-. auto.
    + injection Heq as -> ->. right. split; [congruence | assumption].
  - rewrite in_app_iff. simpl. intros [Hin | [Heq | []]].
    + right. split; [| assumption]. intros ->.
      apply dict_mem_false in Hmem. apply Hmem.
      unfold keys. now apply (in_map fst) in Hin.
    + injection Heq as <- <-. auto.
Qed.

Lemma dict_set_keys (k0 : string) (v0 : pyval) (d : dict) (k : string) :
  In k (keys (dict_set k0 v0 d)) <-> k = k0 \/ In k (keys d).
Proof.
  unfold dict_set. destruct (dict_mem k0 d) eqn:Hmem.
  - assert (Hk0 : In k0 (keys d)).
    { destruct (in_dec string_dec k0 (keys d)) as [Hin | Hn]; [assumption |].
      apply dict_mem_false in Hn. congruence. }
    unfold keys. rewrite map_map.
    assert (Hsame : map (fun x : string * pyval =>
                fst (if String.eqb k0 (fst x) then (k0, v0) else x)) d
            = map fst d).
    { apply map_ext. intros [k' v']. simpl.
      now destruct (String.eqb_spec k0 k') as [-> | Hne]. }
    rewrite Hsame. split; [auto | intros [-> | Hin]; assumption].
  - unfold keys. rewrite map_app, in_app_iff. simpl.
    split; [intros [Hin | [<- | []]]; auto | intros [-> | Hin]; auto].
Qed.

Lemma configured_cases (k : string) (cfg : equipment) :
  dict_get k equipment_config = Some cfg ->
  (k = "blower" /\ eq_pin cfg = 17) \/ (k = "vibrofeeder" /\ eq_pin cfg = 27).
Proof.
  simpl. destruct (String.eqb_spec k "blower") as [Hb | Hb].
  - intros Hc. injection Hc as <-. auto.
  - destruct (String.eqb_spec k "vibrofeeder") as [Hv | Hv]; [| discriminate].
    intros Hc. injection Hc as <-. auto.
Qed.

(** The two kinds sit on different pins. *)
Lemma pins_differ (k k' : string) (cfg cfg' : equipment) :
  dict_get k equipment_config = Some cfg ->
  dict_get k' equipment_config = Some cfg' ->
  k <> k' -> eq_pin cfg <> eq_pin cfg'.
Proof.
  intros Hc Hc' Hne.
  destruct (configured_cases _ Hc) as [[-> ->] | [-> ->]];
    destruct (configured_cases _ Hc') as [[-> ->] | [-> ->]];
    congruence.
Qed.

(** ** One pass of the delta loop *)

Lemma published_app (a b : list event) :
  published (a ++ b) = published a ++ published b.
Proof. unfold published. apply flat_map_app. Qed.

Lemma published_gpio (evs : list event) :
  (forall e, In e evs -> is_gpio e) -> published evs = [].
Proof.
  induction evs as [| e evs IH]; intros Hall; [reflexivity |].
  simpl. rewrite IH by (intros; apply Hall; now right).
  specialize (Hall e (or_introl eq_refl)). now destruct e.
Qed.

Section DeltaLoop.
Context {HW : Type} `{Gpio HW}.

Lemma item_skipped (acc : dict) (k : string) (v : pyval) :
  is_equipment_kind k = false ->
  process_delta_item acc (k, v) = Ret acc.
Proof. intros Hk. unfold process_delta_item. now rewrite Hk. Qed.

Lemma item_applied (acc : dict) (k : string) (d : dict) (cfg : equipment)
    (w : World HW) :
  is_equipment_kind k = true ->
  dict_get k equipment_config = Some cfg ->
  let l := level_of (truthy (desired_active d)) in
  let h' := gpio_output (hw w) (eq_pin cfg) l in
  let v := gpio_input h' (eq_pin cfg) in
  run (process_delta_item acc (k, PDict d)) w
  = mkResult (Returned (dict_set k (state_obj (level_eqb v LOW)) acc))
      (mkWorld h' (acks w))
      [EvOutput (eq_pin cfg) l; EvInput (eq_pin cfg) v; EvInput (eq_pin cfg) v].
Proof.
  intros Hk Hcfg. unfold process_delta_item, set_state, get_state.
  rewrite Hk, Hcfg. reflexivity.
Qed.

Lemma item_malformed (acc : dict) (k : string) (v : pyval) (w : World HW) :
  is_equipment_kind k = true ->
  (forall d, v <> PDict d) ->
  run (process_delta_item acc (k, v)) w = mkResult (Raised AttributeError) w [].
Proof.
  intros Hk Hv. unfold process_delta_item. rewrite Hk.
  destruct v; try reflexivity. now destruct (Hv d).
Qed.

Lemma run_for_each_cons (A X : Type) (body : A -> X -> prog A)
    (x : X) (xs : list X) (acc : A) (w : World HW) :
  run (for_each body (x :: xs) acc) w
  = and_then (run (body acc x) w) (fun acc' => run (for_each body xs acc')).
Proof. simpl. apply run_bind. Qed.

(** The three ways an item can go. *)
Lemma item_cases (acc : dict) (k : string) (v : pyval) (w : World HW) :
  (is_equipment_kind k = false /\ process_delta_item acc (k, v) = Ret acc)
  \/ (is_equipment_kind k = true /\ (forall d, v <> PDict d) /\
      run (process_delta_item acc (k, v)) w
      = mkResult (Raised AttributeError) w [])
  \/ (exists d cfg,
        is_equipment_kind k = true /\ v = PDict d /\
        dict_get k equipment_config = Some cfg /\
        let l := level_of (truthy (desired_active d)) in
        let h' := gpio_output (hw w) (eq_pin cfg) l in
        let lv := gpio_input h' (eq_pin cfg) in
        run (process_delta_item acc (k, v)) w
        = mkResult (Returned (dict_set k (state_obj (level_eqb lv LOW)) acc))
            (mkWorld h' (acks w))
            [EvOutput (eq_pin cfg) l; EvInput (eq_pin cfg) lv;
             EvInput (eq_pin cfg) lv]).
Proof.
  destruct (is_equipment_kind k) eqn:Hk.
  - right. destruct (known_kind_configured k Hk) as [cfg Hcfg].
    assert (Hd : (exists d, v = PDict d) \/ (forall d, v <> PDict d)).
    { destruct v; try (right; discriminate). left; eauto. }
    destruct Hd as [[d ->] | Hnd].
    + right. exists d, cfg. repeat split; try assumption.
      now apply item_applied.
    + left. repeat split; try assumption. now apply item_malformed.
  - left. split; [reflexivity |]. now apply item_skipped.
Qed.
End DeltaLoop.

(** ** A whole delta batch *)

(** Splits a non-empty loop according to its first item. *)
Ltac first_item acc k v w :=
  unfold delta_loop in *; rewrite run_for_each_cons in *;
  destruct (item_cases acc k v w)
    as [[?Hk ?Hitem]
       | [(?Hk & ?Hnd & ?Hitem)
         | (?d & ?cfg & ?Hk & ?Hv & ?Hcfg & ?Hitem)]];
  cbv zeta in *; rewrite ?Hitem in *; unfold and_then in *; simpl in *;
  fold (delta_loop) in *.

Section DeltaBatch.
Context {HW : Type} `{Gpio HW}.


Lemma loop_gpio (delta acc : dict) (w : World HW) (e : event) :
  In e (events (delta_loop delta acc w)) -> is_gpio e.
Proof.
  revert acc w. induction delta as [| [k v] delta IH]; intros acc w Hin.
  - destruct Hin.
  - first_item acc k v w.
    + eapply IH, Hin.
    + destruct Hin.
    + destruct Hin as [<- | [<- | [<- | Hin]]]; simpl; auto.
      eapply IH, Hin.
Qed.

Lemma loop_acks (delta acc : dict) (w : World HW) :
  acks (world (delta_loop delta acc w)) = acks w.
Proof.
  revert acc w. induction delta as [| [k v] delta IH]; intros acc w.
  - reflexivity.
  - first_item acc k v w.
    + apply IH.
    + reflexivity.
    + now rewrite IH.
Qed.

(** The loop over two lists in a row is the loop over the first and,
    when that one returns, the loop over the second from where it
    stopped. *)
Lemma loop_app (pre post acc : dict) (w : World HW) :
  delta_loop (pre ++ post) acc w
  = and_then (delta_loop pre acc w) (fun acc' w' => delta_loop post acc' w').
Proof.
  revert acc w. induction pre as [| [k v] pre IH]; intros acc w.
  - unfold delta_loop, and_then. simpl.
    now destruct (run (for_each process_delta_item post acc) w).
  - simpl app. unfold delta_loop in *. rewrite !run_for_each_cons.
    unfold and_then in *.
    destruct (run (process_delta_item acc (k, v)) w) as [[acc1 | e] w1 evs1];
      cbn [value world events].
    + rewrite IH.
      destruct (run (for_each process_delta_item pre acc1) w1)
        as [[acc2 | e] w2 evs2]; cbn [value world events].
      * now rewrite app_assoc.
      * reflexivity.
    + reflexivity.
Qed.

Lemma loop_returns (delta acc : dict) (w : World HW) :
  (forall k v, In (k, v) delta -> is_equipment_kind k = true ->
               exists d, v = PDict d) ->
  exists updated, value (delta_loop delta acc w) = Returned updated.
Proof.
  revert acc w. induction delta as [| [k v] delta IH]; intros acc w Hwf.
  - simpl. eauto.
  - assert (Hwf' : forall k v, In (k, v) delta ->
              is_equipment_kind k = true -> exists d, v = PDict d)
      by (intros; eapply Hwf; [right |]; eassumption).
    first_item acc k v w.
    + now apply IH.
    + destruct (Hwf k v (or_introl eq_refl) Hk) as [d Hd].
      now destruct (Hnd d).
    + now apply IH.
Qed.

Lemma loop_keys (delta acc : dict) (w : World HW) (updated : dict) :
  value (delta_loop delta acc w) = Returned updated ->
  forall k, In k (keys updated) <->
            In k (keys acc) \/ (In k (keys delta) /\ is_equipment_kind k = true).
Proof.
  revert acc w. induction delta as [| [k0 v0] delta IH]; intros acc w Hret k.
  - simpl in Hret. injection Hret as <-. simpl. tauto.
  - first_item acc k0 v0 w.
    + rewrite (IH _ _ Hret). intuition congruence.
    + discriminate.
    + rewrite (IH _ _ Hret), dict_set_keys. intuition congruence.
Qed.

Lemma loop_keys_in_order (delta acc : dict) (w : World HW) (updated : dict) :
  NoDup (keys acc ++ keys delta) ->
  value (delta_loop delta acc w) = Returned updated ->
  keys updated = keys acc ++ filter is_equipment_kind (keys delta).
Proof.
  revert acc w.
  induction delta as [| [k0 v0] delta IH]; intros acc w Hnd Hret.
  - simpl in Hret. injection Hret as <-. simpl. now rewrite app_nil_r.
  - assert (Hfresh : ~ In k0 (keys acc)).
    { apply NoDup_remove_2 in Hnd. rewrite in_app_iff in Hnd. tauto. }
    first_item acc k0 v0 w.
    + rewrite Hk. apply (IH _ _ (NoDup_remove_1 _ _ _ Hnd) Hret).
    + discriminate.
    + rewrite Hk. rewrite dict_set_new in Hret by assumption.
      match type of Hret with
      | context [for_each _ _ (acc ++ [?item])] =>
          assert (Hnd' : NoDup (keys (acc ++ [item]) ++ keys delta))
            by (unfold keys in *; rewrite map_app, <- app_assoc; exact Hnd)
      end.
      rewrite (IH _ _ Hnd' Hret).
      unfold keys. rewrite map_app, <- app_assoc. reflexivity.
Qed.

Lemma loop_applies (delta acc : dict) (w : World HW) (updated : dict) :
  value (delta_loop delta acc w) = Returned updated ->
  forall k d, In (k, PDict d) delta -> is_equipment_kind k = true ->
  exists cfg,
    dict_get k equipment_config = Some cfg /\
    In (EvOutput (eq_pin cfg) (level_of (truthy (desired_active d))))
       (events (delta_loop delta acc w)).
Proof.
  revert acc w.
  induction delta as [| [k0 v0] delta IH]; intros acc w Hret k d Hin Hkind.
  - destruct Hin.
  - first_item acc k0 v0 w.
    + destruct Hin as [Heq | Hin]; [congruence |].
      apply (IH _ _ Hret _ _ Hin Hkind).
    + discriminate.
    + destruct Hin as [Heq | Hin].
      * injection Heq as -> Hv0. rewrite Hv in Hv0. injection Hv0 as ->.
        exists cfg. auto.
      * destruct (IH _ _ Hret _ _ Hin Hkind) as (cfg' & Hc & Hev).
        exists cfg'. auto.
Qed.

Lemma run_update_shadow_reported_state (states : dict) (w : World HW) :
  run (_update_shadow_reported_state states) w
  = mkResult (Returned tt)
      (mkWorld (hw w) (snd (next_ack (acks w))))
      [EvPublish states (fst (next_ack (acks w)))].
Proof.
  unfold _update_shadow_reported_state. simpl.
  now destruct (next_ack (acks w)) as [[|] rest].
Qed.

Lemma run_process_shadow_delta (delta : dict) (w : World HW) :
  run (_process_shadow_delta delta) w = finish_batch (delta_loop delta [] w).
Proof.
  unfold _process_shadow_delta, finish_batch, delta_loop.
  rewrite run_try_except, run_bind.
  unfold or_else, and_then.
  destruct (run (for_each process_delta_item delta []) w)
    as [[[| item updated] | e] w' evs]; cbn [value world events truthy].
  - simpl. now rewrite app_nil_r.
  - rewrite run_update_shadow_reported_state. simpl.
    destruct (next_ack (acks w')) as [ok rest]; reflexivity.
  - simpl. now rewrite app_nil_r.
Qed.
End DeltaBatch.

(** ** Reported values come from a read-back *)

Lemma read_back_later (evs more : list event) (k : string) (v : pyval) :
  read_back_of evs k v ->
  (forall cfg l, dict_get k equipment_config = Some cfg ->
                 ~ In (EvOutput (eq_pin cfg) l) more) ->
  read_back_of (evs ++ more) k v.
Proof.
  intros (cfg & lvl & before & after & Hcfg & Hv & Hevs & Hquiet) Hmore.
  exists cfg, lvl, before, (after ++ more). repeat split; try assumption.
  - rewrite Hevs, <- app_assoc. reflexivity.
  - intros l. rewrite in_app_iff. intros [Hin | Hin].
    + exact (Hquiet l Hin).
    + exact (Hmore cfg l Hcfg Hin).
Qed.

Lemma read_back_earlier (pre evs : list event) (k : string) (v : pyval) :
  read_back_of evs k v -> read_back_of (pre ++ evs) k v.
Proof.
  intros (cfg & lvl & before & after & Hcfg & Hv & Hevs & Hquiet).
  exists cfg, lvl, (pre ++ before), after. repeat split; try assumption.
  rewrite Hevs, <- app_assoc. reflexivity.
Qed.

(** A publish that closes a run of GPIO calls is the only one there. *)
Lemma only_publish_is_last (l : list event) (x : event)
    (before after : list event) (reported : dict) (acked : bool) :
  (forall e, In e l -> is_gpio e) ->
  l ++ [x] = before ++ EvPublish reported acked :: after ->
  before = l /\ x = EvPublish reported acked /\ after = [].
Proof.
  revert before. induction l as [| a l IH]; intros before Hgpio Heq.
  - destruct before as [| b before]; simpl in Heq.
    + injection Heq as -> <-. auto.
    + injection Heq as _ Heq. now destruct before.
  - destruct before as [| b before]; simpl in Heq.
    + injection Heq as -> _. now destruct (Hgpio _ (or_introl eq_refl)).
    + injection Heq as <- Heq.
      destruct (IH before) as (-> & -> & ->); auto.
      intros e He. apply Hgpio. now right.
Qed.

Lemma gpio_has_no_publish (l before after : list event)
    (reported : dict) (acked : bool) :
  (forall e, In e l -> is_gpio e) ->
  l <> before ++ EvPublish reported acked :: after.
Proof.
  intros Hgpio ->.
  apply (Hgpio (EvPublish reported acked)).
  rewrite in_app_iff. right. now left.
Qed.

Section ReadBack.
Context {HW : Type} `{Gpio HW}.

Lemma loop_read_back (delta acc : dict) (w : World HW) (pre : list event)
    (updated : dict) :
  (forall k v, In (k, v) acc -> read_back_of pre k v) ->
  value (delta_loop delta acc w) = Returned updated ->
  forall k v, In (k, v) updated ->
              read_back_of (pre ++ events (delta_loop delta acc w)) k v.
Proof.
  revert acc w pre.
  induction delta as [| [k0 v0] delta IH]; intros acc w pre Hacc Hret k v Hin.
  - simpl in *. injection Hret as <-. rewrite app_nil_r. auto.
  - first_item acc k0 v0 w.
    + apply (IH _ _ _ Hacc Hret _ _ Hin).
    + discriminate.
    + match goal with
      | |- read_back_of (pre ++ ?a :: ?b :: ?c :: ?rest) k v =>
          change (pre ++ a :: b :: c :: rest)
            with (pre ++ [a; b; c] ++ rest);
          rewrite app_assoc
      end.
      refine (IH _ _ _ _ Hret _ _ Hin).
      intros k' v' Hin'. apply dict_set_in in Hin' as [[-> ->] | [Hne Hold]].
      * eexists cfg, _, (pre ++ [_; _]), [].
        repeat split; [assumption | | intros l []].
        rewrite <- app_assoc. reflexivity.
      * apply read_back_later; [now apply Hacc |].
        intros cfg' l Hcfg'. simpl.
        pose proof (pins_differ Hcfg' Hcfg Hne) as Hpins.
        intros [Heq | [Heq | [Heq | []]]]; try discriminate.
        injection Heq as Hp _. congruence.
Qed.

Lemma process_shadow_delta_read_back (delta : dict) (w : World HW) :
  publishes_read_back (events (run (_process_shadow_delta delta) w)).
Proof.
  rewrite run_process_shadow_delta. unfold finish_batch.
  pose proof (loop_gpio delta [] w) as Hgpio.
  pose proof (@loop_read_back delta [] w []) as Hloop.
  destruct (value (delta_loop delta [] w)) as [[| item updated] | e] eqn:Hval.
  - intros before reported acked after Heq. simpl in Heq.
    now apply gpio_has_no_publish in Heq; [| intros; now apply Hgpio].
  - destruct (next_ack (acks (world (delta_loop delta [] w)))) as [ok rest].
    intros before reported acked after Heq k v Hin. simpl in Heq.
    apply only_publish_is_last in Heq as (-> & Heq & _);
      [| intros; now apply Hgpio].
    injection Heq as <- _.
    apply (Hloop _ (fun _ _ F => match F with end) eq_refl _ _ Hin).
  - intros before reported acked after Heq. simpl in Heq.
    now apply gpio_has_no_publish in Heq; [| intros; now apply Hgpio].
Qed.

Lemma run_get_all_states (w : World HW) :
  run get_all_states w
  = mkResult
      (Returned
         [ ("blower", state_obj (level_eqb (gpio_input (hw w) 17) LOW));
           ("vibrofeeder", state_obj (level_eqb (gpio_input (hw w) 27) LOW)) ])
      w
      [EvInput 17 (gpio_input (hw w) 17); EvInput 27 (gpio_input (hw w) 27)].
Proof. reflexivity. Qed.

Lemma run_sync_shadow_with_hardware (w : World HW) :
  let (ok1, rest1) := next_ack (acks w) in
  let (ok2, rest2) := next_ack rest1 in
  run _sync_shadow_with_hardware w
  = mkResult (Returned tt) (mkWorld (hw w) rest2)
      [ EvInput 17 (gpio_input (hw w) 17);
        EvInput 27 (gpio_input (hw w) 27);
        EvPublish
          [ ("blower", state_obj (level_eqb (gpio_input (hw w) 17) LOW));
            ("vibrofeeder",
             state_obj (level_eqb (gpio_input (hw w) 27) LOW)) ] ok1;
        EvGetShadow ok2 ].
Proof.
  unfold _sync_shadow_with_hardware, _update_shadow_reported_state,
    _get_shadow_document.
  simpl. destruct (next_ack (acks w)) as [[|] rest1]; simpl;
    destruct (next_ack rest1) as [[|] rest2]; reflexivity.
Qed.
End ReadBack.

Section ControlPath.
Context {HW : Type} `{Gpio HW}.

Lemma run_update_known (k : string) (d : bool) (cfg : equipment)
    (w : World HW) :
  dict_get k equipment_config = Some cfg ->
  let h' := gpio_output (hw w) (eq_pin cfg) (level_of d) in
  let lv := gpio_input h' (eq_pin cfg) in
  let actual := level_eqb lv LOW in
  run (update_equipment_state_and_shadow k d) w
  = mkResult (Returned actual)
      (mkWorld h' (snd (next_ack (acks w))))
      [ EvOutput (eq_pin cfg) (level_of d);
        EvInput (eq_pin cfg) lv;
        EvPublish [(k, state_obj actual)] (fst (next_ack (acks w))) ].
Proof.
  intros Hcfg.
  unfold update_equipment_state_and_shadow, set_state, get_state.
  rewrite Hcfg. simpl.
  destruct (next_ack (acks w)) as [[|] rest]; destruct d; reflexivity.
Qed.

Lemma run_update_unknown (k : string) (d : bool) (w : World HW) :
  dict_get k equipment_config = None ->
  run (update_equipment_state_and_shadow k d) w
  = mkResult (Raised (unknown_equipment k)) w [].
Proof.
  intros Hcfg.
  unfold update_equipment_state_and_shadow, set_state, get_state.
  rewrite Hcfg. reflexivity.
Qed.

Lemma update_read_back (k : string) (d : bool) (w : World HW) :
  publishes_read_back
    (events (run (update_equipment_state_and_shadow k d) w)).
Proof.
  destruct (dict_get k equipment_config) as [cfg |] eqn:Hcfg.
  - rewrite (run_update_known k d w Hcfg). cbn [events].
    intros before reported acked after Heq k' v' Hin.
    change [EvOutput (eq_pin cfg) (level_of d);
            EvInput (eq_pin cfg)
              (gpio_input (gpio_output (hw w) (eq_pin cfg) (level_of d))
                 (eq_pin cfg));
            EvPublish
              [(k, state_obj
                     (level_eqb
                        (gpio_input
                           (gpio_output (hw w) (eq_pin cfg) (level_of d))
                           (eq_pin cfg)) LOW))]
              (fst (next_ack (acks w)))]
      with ([EvOutput (eq_pin cfg) (level_of d);
             EvInput (eq_pin cfg)
               (gpio_input (gpio_output (hw w) (eq_pin cfg) (level_of d))
                  (eq_pin cfg))]
            ++ [EvPublish
                  [(k, state_obj
                         (level_eqb
                            (gpio_input
                               (gpio_output (hw w) (eq_pin cfg) (level_of d))
                               (eq_pin cfg)) LOW))]
                  (fst (next_ack (acks w)))]) in Heq.
    apply only_publish_is_last in Heq as (-> & Heq & _).
    + injection Heq as <- _. destruct Hin as [Hin | []].
      injection Hin as <- <-.
      exists cfg, (gpio_input (gpio_output (hw w) (eq_pin cfg) (level_of d))
                     (eq_pin cfg)),
        [EvOutput (eq_pin cfg) (level_of d)], [].
      repeat split; [assumption | intros l []].
    + intros e [<- | [<- | []]]; exact I.
  - rewrite (run_update_unknown k d w Hcfg). cbn [events].
    intros before reported acked after Heq. now destruct before.
Qed.

Lemma sync_read_back (w : World HW) :
  publishes_read_back (events (run _sync_shadow_with_hardware w)).
Proof.
  pose proof (run_sync_shadow_with_hardware w) as Hrun.
  destruct (next_ack (acks w)) as [ok1 rest1].
  destruct (next_ack rest1) as [ok2 rest2].
  rewrite Hrun. cbn [events].
  intros before reported acked after Heq k v Hin.
  destruct before as [| e1 [| e2 [| e3 [| e4 before]]]]; simpl in Heq;
    try discriminate; try (injection Heq as _ _ _ _ Heq; now destruct before).
  injection Heq as <- <- <- _ _.
  destruct Hin as [Hin | [Hin | []]]; injection Hin as <- <-.
  - exists (mkEquipment 17 "Blower"), (gpio_input (hw w) 17),
      [], [EvInput 27 (gpio_input (hw w) 27)].
    repeat split. intros l [Hl | []]. discriminate.
  - exists (mkEquipment 27 "Vibrofeeder"), (gpio_input (hw w) 27),
      [EvInput 17 (gpio_input (hw w) 17)], [].
    repeat split. intros l [].
Qed.
End ControlPath.

(** C1.  Whatever the hardware, the transport and the input, every
    reported-state publish issued while processing a delta batch, during
    the startup synchronisation or by the control path carries, for each
    kind in its payload, a value that [get_state] read from that kind's
    pin earlier in the same operation, with no write to the pin between
    the read and the publish.  A requested value is never published
    unread. *)
Theorem reported_state_is_read_back (HW : Type) `{Gpio HW} (w : World HW) :
  (forall delta,
     publishes_read_back (events (run (_process_shadow_delta delta) w))) /\
  publishes_read_back (events (run _sync_shadow_with_hardware w)) /\
  (forall k d,
     publishes_read_back
       (events (run (update_equipment_state_and_shadow k d) w))).
Proof.
  split; [| split].
  - intros delta. apply process_shadow_delta_read_back.
  - apply sync_read_back.
  - intros k d. apply update_read_back.
Qed.

Lemma reported_state_is_read_back_witness :
  read_back_of
    [EvOutput 27 LOW; EvInput 27 HIGH; EvInput 27 HIGH]
    "vibrofeeder" (state_obj false).
Proof.
  apply (proj1 (reported_state_is_read_back (mkWorld DeadRelays [true]))
           [("vibrofeeder", state_obj true)]
           [EvOutput 27 LOW; EvInput 27 HIGH; EvInput 27 HIGH]
           [("vibrofeeder", state_obj false)] true []).
  - reflexivity.
  - left. reflexivity.
Defined.

(** The example of the specification: relays that cannot energize, asked
    to switch the vibrofeeder on, report it off. *)
Example dead_relays_report_the_truth :
  published
    (events (run (_process_shadow_delta [("vibrofeeder", state_obj true)])
               (mkWorld DeadRelays [true])))
  = [[("vibrofeeder", state_obj false)]].
Proof. reflexivity. Qed.

(** ** Batches *)

Section Batches.
Context {HW : Type} `{Gpio HW}.

Lemma loop_skips_invalid (delta acc : dict) (w : World HW) :
  delta_loop delta acc w = delta_loop (filter valid_item delta) acc w.
Proof.
  revert acc w. unfold delta_loop.
  induction delta as [| [k v] delta IH]; intros acc w; [reflexivity |].
  simpl filter. unfold valid_item at 1. simpl fst.
  destruct (is_equipment_kind k) eqn:Hk.
  - rewrite !run_for_each_cons. unfold and_then.
    destruct (value (run (process_delta_item acc (k, v)) w));
      [rewrite IH |]; reflexivity.
  - rewrite run_for_each_cons, item_skipped by assumption.
    unfold and_then. simpl. rewrite <- IH.
    now destruct (run (for_each process_delta_item delta acc) w).
Qed.

Lemma batch_skips_invalid (delta : dict) (w : World HW) :
  run (_process_shadow_delta delta) w
  = run (_process_shadow_delta (filter valid_item delta)) w.
Proof. now rewrite !run_process_shadow_delta, loop_skips_invalid. Qed.

Lemma published_of_batch (delta : dict) (w : World HW) :
  published (events (run (_process_shadow_delta delta) w))
  = match value (delta_loop delta [] w) with
    | Returned ((_ :: _) as updated) => [updated]
    | _ => []
    end.
Proof.
  rewrite run_process_shadow_delta. unfold finish_batch.
  assert (Hgpio : published (events (delta_loop delta [] w)) = [])
    by (apply published_gpio; intros e; apply loop_gpio).
  destruct (value (delta_loop delta [] w)) as [[| item updated] | e];
    simpl; try assumption.
  destruct (next_ack (acks (world (delta_loop delta [] w)))) as [ok rest].
  simpl. now rewrite published_app, Hgpio.
Qed.
End Batches.

(** C8.  One delta batch issues at most one reported-state publish; when
    it issues one, the payload holds exactly the valid keys of the batch,
    all together; a batch without a valid key issues none.  And the one
    publish is issued: in a batch with a valid key, where the payload of
    each valid key is an object, the calls of the run are pin writes and
    reads followed by one publish, the last call of the run, whose
    payload holds every valid key of the batch, each with the value read
    back from its pin. *)
Theorem delta_batch_publishes_once (HW : Type) `{Gpio HW}
    (delta : dict) (w : World HW) :
  let r := run (_process_shadow_delta delta) w in
  let sent := published (events r) in
  (length sent <= 1)%nat /\
  (forall reported, In reported sent ->
     forall k, In k (keys reported) <->
               In k (keys delta) /\ is_equipment_kind k = true) /\
  (filter is_equipment_kind (keys delta) = [] -> sent = []) /\
  ((exists k, In k (keys delta) /\ is_equipment_kind k = true) ->
   (forall k v, In (k, v) delta -> is_equipment_kind k = true ->
                exists d, v = PDict d) ->
   exists calls reported,
     events r
     = calls ++ [EvPublish reported (fst (next_ack (acks w)))] /\
     sent = [reported] /\
     (forall e, In e calls -> is_gpio e) /\
     (forall k, In k (keys reported) <->
                In k (keys delta) /\ is_equipment_kind k = true) /\
     (forall k v, In (k, v) reported -> read_back_of calls k v)).
Proof.
  cbv zeta. rewrite published_of_batch.
  assert (Hsome : (exists k, In k (keys delta) /\ is_equipment_kind k = true) ->
    (forall k v, In (k, v) delta -> is_equipment_kind k = true ->
                 exists d, v = PDict d) ->
    exists item rest,
      value (delta_loop delta [] w) = Returned (item :: rest)).
  { intros (k1 & Hin1 & Hkind1) Hwf.
    destruct (loop_returns delta [] w Hwf) as [updated Hval].
    pose proof (@loop_keys _ _ delta [] w _ Hval) as Hkeys.
    destruct updated as [| item rest]; [| eauto].
    exfalso. apply (proj2 (Hkeys k1)). right; auto. }
  assert (Hlast : forall item rest,
    value (delta_loop delta [] w) = Returned (item :: rest) ->
    events (run (_process_shadow_delta delta) w)
    = events (delta_loop delta [] w)
      ++ [EvPublish (item :: rest) (fst (next_ack (acks w)))]).
  { intros item rest Hval.
    rewrite run_process_shadow_delta. unfold finish_batch. rewrite Hval.
    rewrite (loop_acks delta [] w).
    now destruct (next_ack (acks w)). }
  destruct (value (delta_loop delta [] w)) as [[| item updated] | e] eqn:Hval.
  - split; [simpl; lia | split; [intros reported [] | split; [reflexivity |]]].
    intros Hex Hwf. destruct (Hsome Hex Hwf) as (? & ? & ?). discriminate.
  - pose proof (@loop_keys _ _ delta [] w _ Hval) as Hkeys.
    split; [simpl; lia | split; [| split]].
    + intros reported [<- | []] k. rewrite Hkeys. simpl. tauto.
    + intros Hnone. exfalso.
      assert (Hk : In (fst item) (keys (item :: updated))) by now left.
      apply Hkeys in Hk. simpl in Hk.
      destruct Hk as [[] | [Hin Hkind]].
      assert (Hf : In (fst item) (filter is_equipment_kind (keys delta)))
        by (apply filter_In; auto).
      rewrite Hnone in Hf. destruct Hf.
    + intros _ _.
      exists (events (delta_loop delta [] w)), (item :: updated).
      split; [now apply Hlast | split; [reflexivity | split; [| split]]].
      * intros ev. apply loop_gpio.
      * intros k. rewrite Hkeys. simpl. tauto.
      * intros k v Hin.
        apply (@loop_read_back _ _ delta [] w [] _
                 (fun _ _ F => match F with end) Hval _ _ Hin).
  - split; [simpl; lia | split; [intros reported [] | split; [reflexivity |]]].
    intros Hex Hwf. destruct (Hsome Hex Hwf) as (? & ? & ?). discriminate.
Qed.

Lemma delta_batch_publishes_once_witness :
  let delta :=
    [ ("vibrofeeder", state_obj true);
      ("fan", state_obj true);
      ("blower", PDict []) ] in
  published (events (run (_process_shadow_delta delta) bench))
  = [[("vibrofeeder", state_obj true); ("blower", state_obj false)]] /\
  filter is_equipment_kind (keys [("fan", state_obj true)]) = [] /\
  published
    (events (run (_process_shadow_delta [("fan", state_obj true)]) bench)) = [].
Proof.
  cbv zeta. split; [| split; [reflexivity |]].
  - destruct (delta_batch_publishes_once
                [ ("vibrofeeder", state_obj true);
                  ("fan", state_obj true);
                  ("blower", PDict []) ] bench)
      as (_ & _ & _ & Hsent).
    destruct Hsent as (calls & reported & Hev & Hsent & _).
    + exists "blower". split; [simpl; auto | reflexivity].
    + intros k v [Heq | [Heq | [Heq | []]]] Hkind; injection Heq as <- <-;
        eexists; reflexivity.
    + cbv zeta in Hev, Hsent. rewrite Hsent.
      apply (f_equal (@rev event)) in Hev. rewrite rev_app_distr in Hev.
      simpl in Hev. now injection Hev as <- _.
  - apply (delta_batch_publishes_once [("fan", state_obj true)] bench).
    reflexivity.
Defined.

(** C3.  In a delta batch with at least one valid key, where the payload
    of each valid key is an object, the keys outside {blower,
    vibrofeeder} change nothing: the run is the run of the batch without
    them, the loop reaches its end, every valid key is written with its
    desired level and read back, and one reported-state publish is issued
    whose payload holds exactly the valid keys, each with its read-back
    value.  This holds with or without invalid keys in the batch. *)
Theorem invalid_keys_are_skipped (HW : Type) `{Gpio HW}
    (delta : dict) (w : World HW) :
  (exists k, In k (keys delta) /\ is_equipment_kind k = true) ->
  (forall k v, In (k, v) delta -> is_equipment_kind k = true ->
               exists d, v = PDict d) ->
  let r := run (_process_shadow_delta delta) w in
  r = run (_process_shadow_delta (filter valid_item delta)) w /\
  (exists updated, value (delta_loop delta [] w) = Returned updated) /\
  (forall k d, In (k, PDict d) delta -> is_equipment_kind k = true ->
     exists cfg,
       dict_get k equipment_config = Some cfg /\
       In (EvOutput (eq_pin cfg) (level_of (truthy (desired_active d))))
          (events r)) /\
  exists reported,
    published (events r) = [reported] /\
    (forall k, In k (keys reported) <->
               In k (keys delta) /\ is_equipment_kind k = true) /\
    publishes_read_back (events r).
Proof.
  intros (k1 & Hin1 & Hkind1) Hwf. cbv zeta.
  destruct (loop_returns delta [] w Hwf) as [updated Hval].
  pose proof (@loop_keys _ _ delta [] w _ Hval) as Hkeys.
  assert (Hne : exists item rest, updated = item :: rest).
  { destruct updated as [| item rest]; [| eauto].
    exfalso. apply (proj2 (Hkeys k1)). right; auto. }
  destruct Hne as (item & rest & ->).
  split; [apply batch_skips_invalid | split; [eauto | split]].
  - intros k d Hin Hkind.
    destruct (@loop_applies _ _ delta [] w _ Hval k d Hin Hkind)
      as (cfg & Hcfg & Hev).
    exists cfg. split; [assumption |].
    rewrite run_process_shadow_delta. unfold finish_batch. rewrite Hval.
    destruct (next_ack (acks (world (delta_loop delta [] w)))) as [ok rs].
    simpl. rewrite in_app_iff. now left.
  - exists (item :: rest). split; [| split].
    + rewrite published_of_batch, Hval. reflexivity.
    + intros k. rewrite Hkeys. simpl. tauto.
    + apply process_shadow_delta_read_back.
Qed.

Lemma invalid_keys_are_skipped_witness :
  published
    (events
       (run (_process_shadow_delta
               [ ("fan", PInt 3);
                 ("blower", state_obj true);
                 ("pump", state_obj true) ]) bench))
  = [[("blower", state_obj true)]].
Proof.
  destruct (invalid_keys_are_skipped
              [ ("fan", PInt 3); ("blower", state_obj true);
                ("pump", state_obj true) ] bench)
    as (Hskip & _).
  - exists "blower". split; [simpl; auto | reflexivity].
  - intros k v [Heq | [Heq | [Heq | []]]] Hkind; injection Heq as <- <-;
      try discriminate. eexists. reflexivity.
  - cbv zeta in Hskip. rewrite Hskip. reflexivity.
Defined.

(** ** The desired boolean of a payload *)

Section DesiredBoolean.
Context {HW : Type} `{Gpio HW}.

(** The loop at a valid key whose payload is an object. *)
Lemma loop_cons_applied (post acc : dict) (k : string) (d : dict)
    (cfg : equipment) (w : World HW) :
  is_equipment_kind k = true ->
  dict_get k equipment_config = Some cfg ->
  let l := level_of (truthy (desired_active d)) in
  let h' := gpio_output (hw w) (eq_pin cfg) l in
  let lv := gpio_input h' (eq_pin cfg) in
  let rest :=
    delta_loop post (dict_set k (state_obj (level_eqb lv LOW)) acc)
      (mkWorld h' (acks w)) in
  delta_loop ((k, PDict d) :: post) acc w
  = mkResult (value rest) (world rest)
      ([EvOutput (eq_pin cfg) l; EvInput (eq_pin cfg) lv;
        EvInput (eq_pin cfg) lv]
       ++ events rest).
Proof.
  intros Hk Hcfg. cbv zeta. unfold delta_loop.
  rewrite run_for_each_cons.
  rewrite (@item_applied _ _ acc k d cfg w Hk Hcfg).
  reflexivity.
Qed.

(** The same, once the keys before it are done. *)
Lemma loop_at_key (pre post acc : dict) (k : string) (d : dict)
    (cfg : equipment) (w : World HW) :
  is_equipment_kind k = true ->
  dict_get k equipment_config = Some cfg ->
  value (delta_loop pre [] w) = Returned acc ->
  let before := delta_loop pre [] w in
  let l := level_of (truthy (desired_active d)) in
  let h' := gpio_output (hw (world before)) (eq_pin cfg) l in
  let lv := gpio_input h' (eq_pin cfg) in
  let rest :=
    delta_loop post (dict_set k (state_obj (level_eqb lv LOW)) acc)
      (mkWorld h' (acks w)) in
  delta_loop (pre ++ (k, PDict d) :: post) [] w
  = mkResult (value rest) (world rest)
      (events before
       ++ [EvOutput (eq_pin cfg) l; EvInput (eq_pin cfg) lv;
           EvInput (eq_pin cfg) lv]
       ++ events rest).
Proof.
  intros Hk Hcfg Hval. cbv zeta.
  rewrite loop_app. unfold and_then. rewrite Hval.
  rewrite (@loop_cons_applied post acc k d cfg _ Hk Hcfg).
  cbn [value world events]. rewrite (loop_acks pre [] w). reflexivity.
Qed.

Lemma loop_keeps_keys (delta acc : dict) (w : World HW) (updated : dict)
    (k : string) :
  value (delta_loop delta acc w) = Returned updated ->
  In k (keys acc) -> updated <> [].
Proof.
  intros Hval Hin ->.
  apply (proj2 (@loop_keys _ _ delta _ w _ Hval k)). now left.
Qed.
End DesiredBoolean.

(** C5, as the code has it.  Take a valid key of a delta batch whose
    payload is an object with a boolean [is_active], or without the
    field, and which the loop reaches: the payloads of the valid keys
    before it in the batch are objects.  The reconciler takes that
    boolean as the desired value, false when the field is absent: once
    the keys before it are done, it writes the level of that boolean to
    the key's pin, reads the pin back, records the value read for the
    key, and goes on with the remaining keys of the batch from there.
    The calls of the whole batch are those, followed by the publish of
    what was recorded when the remaining keys went through. *)
Theorem absent_is_active_defaults_to_false (HW : Type) `{Gpio HW}
    (pre post : dict) (k : string) (d : dict) (b : bool) (w : World HW) :
  is_equipment_kind k = true ->
  (dict_get "is_active" d = Some (PBool b) \/
   (dict_get "is_active" d = None /\ b = false)) ->
  (forall k' v', In (k', v') pre -> is_equipment_kind k' = true ->
                 exists o, v' = PDict o) ->
  let delta := pre ++ (k, PDict d) :: post in
  exists cfg acc,
    dict_get k equipment_config = Some cfg /\
    value (delta_loop pre [] w) = Returned acc /\
    let before := delta_loop pre [] w in
    let h' := gpio_output (hw (world before)) (eq_pin cfg) (level_of b) in
    let lv := gpio_input h' (eq_pin cfg) in
    let rest :=
      delta_loop post (dict_set k (state_obj (level_eqb lv LOW)) acc)
        (mkWorld h' (acks w)) in
    let calls :=
      events before
      ++ [EvOutput (eq_pin cfg) (level_of b); EvInput (eq_pin cfg) lv;
          EvInput (eq_pin cfg) lv]
      ++ events rest in
    delta_loop delta [] w = mkResult (value rest) (world rest) calls /\
    events (run (_process_shadow_delta delta) w)
    = calls ++ match value rest with
               | Returned updated =>
                   [EvPublish updated (fst (next_ack (acks w)))]
               | Raised _ => []
               end.
Proof.
  intros Hk Hd Hwf. cbv zeta.
  destruct (known_kind_configured k Hk) as [cfg Hcfg].
  destruct (loop_returns pre [] w Hwf) as [acc Hval].
  exists cfg, acc. split; [assumption | split; [assumption |]].
  assert (Hb : truthy (desired_active d) = b).
  { unfold desired_active. destruct Hd as [-> | [-> ->]]; reflexivity. }
  pose proof (@loop_at_key _ _ pre post acc k d cfg w Hk Hcfg Hval) as Hloop.
  cbv zeta in Hloop. rewrite Hb in Hloop.
  split; [exact Hloop |].
  rewrite run_process_shadow_delta. unfold finish_batch.
  rewrite (loop_acks (pre ++ (k, PDict d) :: post) [] w).
  rewrite Hloop. cbn [value world events hw].
  match goal with
  | |- context [value ?r] => destruct (value r) as [updated | e] eqn:Hrest
  end.
  - assert (Hne : updated <> []).
    { apply (@loop_keeps_keys _ _ _ _ _ _ k Hrest).
      apply dict_set_keys. now left. }
    destruct updated as [| item updated]; [now destruct Hne |].
    now destruct (next_ack (acks w)).
  - now rewrite app_nil_r.
Qed.

Lemma absent_is_active_defaults_to_false_witness :
  let delta :=
    [ ("fan", PInt 3);
      ("blower", PDict [("is_active", PStr "off")]);
      ("vibrofeeder", PDict []);
      ("blower", state_obj false) ] in
  events (run (_process_shadow_delta delta)
            (mkWorld [(17, HIGH); (27, LOW)] [true]))
  = [ EvOutput 17 LOW; EvInput 17 LOW; EvInput 17 LOW;
      EvOutput 27 HIGH; EvInput 27 HIGH; EvInput 27 HIGH;
      EvOutput 17 HIGH; EvInput 17 HIGH; EvInput 17 HIGH;
      EvPublish [("blower", state_obj false); ("vibrofeeder", state_obj false)]
        true ].
Proof.
  cbv zeta.
  destruct (@absent_is_active_defaults_to_false _ _
              [("fan", PInt 3); ("blower", PDict [("is_active", PStr "off")])]
              [("blower", state_obj false)]
              "vibrofeeder" [] false
              (mkWorld [(17, HIGH); (27, LOW)] [true]))
    as (cfg & acc & Hcfg & Hval & _ & Hev).
  - reflexivity.
  - right. split; reflexivity.
  - intros k' v' [Heq | [Heq | []]] Hkind; injection Heq as <- <-;
      [discriminate | eexists; reflexivity].
  - injection Hcfg as <-. injection Hval as <-.
    cbv zeta in Hev. simpl app in Hev. rewrite Hev. reflexivity.
Defined.

(** C5 as the specification states it fails on the code.  A payload that
    is not an object ends the batch at once: the vibrofeeder that follows
    is never written and nothing is published.  And an [is_active] that
    is not a boolean is not replaced by false: the string "off" is true
    to Python, and the blower is switched on. *)
Lemma malformed_payload_counterexample :
  let aborted := [("blower", PStr "on"); ("vibrofeeder", state_obj true)] in
  let truthy_string := [("blower", PDict [("is_active", PStr "off")])] in
  events (run (_process_shadow_delta aborted) bench) = [] /\
  events (run (_process_shadow_delta (normalized aborted)) bench)
  = [ EvOutput 17 HIGH; EvInput 17 HIGH; EvInput 17 HIGH;
      EvOutput 27 LOW; EvInput 27 LOW; EvInput 27 LOW;
      EvPublish [("blower", state_obj false); ("vibrofeeder", state_obj true)]
        true ] /\
  spec_desired (PDict [("is_active", PStr "off")]) = false /\
  events (run (_process_shadow_delta truthy_string) bench)
  = [ EvOutput 17 LOW; EvInput 17 LOW; EvInput 17 LOW;
      EvPublish [("blower", state_obj true)] true ] /\
  ~ (forall (delta : dict) (w : World latches),
       run (_process_shadow_delta delta) w
       = run (_process_shadow_delta (normalized delta)) w).
Proof.
  cbv zeta. repeat split.
  intros Hclaim.
  specialize (Hclaim [("blower", PStr "on"); ("vibrofeeder", state_obj true)]
                bench).
  apply (f_equal (@events _ _)) in Hclaim. discriminate Hclaim.
Qed.

(** ** The same delta twice *)

Lemma latch_write_twice (h : latches) (p : pin) (l : level) :
  latch_write (latch_write h p l) p l = latch_write h p l.
Proof.
  induction h as [| [q l'] h IH]; simpl.
  - now rewrite Z.eqb_refl.
  - destruct (q =? p) eqn:Hq; simpl; rewrite Hq; [reflexivity |].
    now rewrite IH.
Qed.

Lemma level_of_level_eqb (l : level) : level_of (level_eqb l LOW) = l.
Proof. now destruct l. Qed.

(** A batch of one valid key whose payload is an object. *)
Lemma run_single_item_batch (HW : Type) `{Gpio HW}
    (k : string) (d : dict) (cfg : equipment) (w : World HW) :
  dict_get k equipment_config = Some cfg ->
  let l := level_of (truthy (desired_active d)) in
  let h' := gpio_output (hw w) (eq_pin cfg) l in
  let lv := gpio_input h' (eq_pin cfg) in
  run (_process_shadow_delta [(k, PDict d)]) w
  = mkResult (Returned tt)
      (mkWorld h' (snd (next_ack (acks w))))
      [ EvOutput (eq_pin cfg) l; EvInput (eq_pin cfg) lv;
        EvInput (eq_pin cfg) lv;
        EvPublish [(k, state_obj (level_eqb lv LOW))]
          (fst (next_ack (acks w))) ].
Proof.
  intros Hcfg. cbv zeta.
  destruct (configured_cases k Hcfg) as [[-> _] | [-> _]];
    injection Hcfg as <-;
    unfold _process_shadow_delta, process_delta_item, set_state, get_state,
      _update_shadow_reported_state, desired_active;
    simpl; destruct (next_ack (acks w)) as [[|] rest]; reflexivity.
Qed.

(** C9.  On hardware where writing a level to a pin that already holds
    it changes nothing, processing the same one-key delta twice in a row
    leaves the hardware after the second pass as it was after the first,
    and the two publishes report the same value.  That value is the one
    the hardware holds: each pass writes the desired level to the kind's
    pin, reads the pin back and publishes what it read, which is what
    [get_state] returns after the first pass and after the second. *)
Theorem repeated_delta_is_idempotent (HW : Type) `{Gpio HW}
    (k : string) (d : bool) (w : World HW) :
  is_equipment_kind k = true ->
  (forall p l,
     gpio_output (gpio_output (hw w) p l) p l = gpio_output (hw w) p l) ->
  let delta := [(k, state_obj d)] in
  let first := run (_process_shadow_delta delta) w in
  let second := run (_process_shadow_delta delta) (world first) in
  hw (world second) = hw (world first) /\
  exists cfg verified,
    dict_get k equipment_config = Some cfg /\
    hw (world first) = gpio_output (hw w) (eq_pin cfg) (level_of d) /\
    verified = level_eqb (gpio_input (hw (world first)) (eq_pin cfg)) LOW /\
    value (run (get_state k) (world first)) = Returned verified /\
    value (run (get_state k) (world second)) = Returned verified /\
    published (events first) = [[(k, state_obj verified)]] /\
    published (events second) = [[(k, state_obj verified)]] /\
    let pass acked :=
      [ EvOutput (eq_pin cfg) (level_of d);
        EvInput (eq_pin cfg) (level_of verified);
        EvInput (eq_pin cfg) (level_of verified);
        EvPublish [(k, state_obj verified)] acked ] in
    events first = pass (fst (next_ack (acks w))) /\
    events second = pass (fst (next_ack (snd (next_ack (acks w))))).
Proof.
  intros Hk Hidem. cbv zeta.
  destruct (known_kind_configured k Hk) as [cfg Hcfg].
  unfold state_obj at 1 2 3 4 5 6 7.
  rewrite !(@run_single_item_batch _ _ k [("is_active", PBool d)] cfg _ Hcfg).
  cbn [world events hw acks published flat_map app value].
  unfold desired_active. cbn [dict_get String.eqb Ascii.eqb Bool.eqb truthy].
  rewrite !Hidem. split; [reflexivity |].
  exists cfg,
    (level_eqb (gpio_input (gpio_output (hw w) (eq_pin cfg) (level_of d))
                  (eq_pin cfg)) LOW).
  unfold get_state. rewrite Hcfg. cbn [run value world hw emit events].
  rewrite level_of_level_eqb.
  repeat split; reflexivity.
Qed.

Lemma repeated_delta_is_idempotent_witness :
  let delta := [("vibrofeeder", state_obj true)] in
  let stuck := mkWorld DeadRelays [true; true] in
  is_equipment_kind "vibrofeeder" = true /\
  published (events (run (_process_shadow_delta delta) stuck))
  = [[("vibrofeeder", state_obj false)]] /\
  hw (world (run (_process_shadow_delta [("blower", state_obj true)])
               (world (run (_process_shadow_delta [("blower", state_obj true)])
                         bench))))
  = hw (world (run (_process_shadow_delta [("blower", state_obj true)]) bench)).
Proof.
  cbv zeta. split; [reflexivity | split].
  - destruct (repeated_delta_is_idempotent "vibrofeeder" true
                (mkWorld DeadRelays [true; true]))
      as (_ & cfg & verified & Hcfg & _ & Hverified & _ & _ & Hsent & _).
    + reflexivity.
    + intros p l. reflexivity.
    + cbv zeta in Hsent. rewrite Hsent, Hverified.
      injection Hcfg as <-. reflexivity.
  - apply (repeated_delta_is_idempotent "blower" true bench).
    + reflexivity.
    + intros p l. apply (latch_write_twice (hw bench) p l).
Defined.

(** ** The full shadow document *)

Lemma dict_get_in (A : Type) (k : string) (d : list (string * A)) (v : A) :
  dict_get k d = Some v -> In (k, v) d.
Proof.
  induction d as [| [k' v'] d IH]; simpl; [discriminate |].
  destruct (String.eqb_spec k k') as [-> | Hne].
  - intros Heq. injection Heq as ->. now left.
  - intros Heq. right. now apply IH.
Qed.

Section FullDocument.
Context {HW : Type} `{Gpio HW}.

Lemma process_shadow_delta_returns (delta : dict) (w : World HW) :
  value (run (_process_shadow_delta delta) w) = Returned tt.
Proof.
  rewrite run_process_shadow_delta. unfold finish_batch.
  destruct (value (delta_loop delta [] w)) as [[| item updated] | e];
    try reflexivity.
  now destruct (next_ack (acks (world (delta_loop delta [] w)))).
Qed.

Lemma pending_item_run (rep : dict) (k : string) (v : pyval) (w : World HW) :
  objects_for_kinds rep ->
  (is_equipment_kind k = true -> exists o, v = PDict o) ->
  run (pending_desired_item rep tt (k, v)) w
  = if pending rep (k, v)
    then run (_process_shadow_delta [(k, v)]) w
    else mkResult (Returned tt) w [].
Proof.
  intros Hrep Hv. unfold pending_desired_item, pending. simpl fst. simpl snd.
  destruct (is_equipment_kind k) eqn:Hk; [| reflexivity].
  destruct (Hv eq_refl) as [o ->].
  assert (Hcur : exists c,
             match dict_get k rep with Some x => x | None => PDict [] end
             = PDict c).
  { destruct (dict_get k rep) as [x |] eqn:Hget; [| eauto].
    apply dict_get_in in Hget. now apply (Hrep k x Hget). }
  destruct Hcur as [c Hc]. rewrite Hc. simpl.
  now destruct (negb _).
Qed.

Lemma pending_loop (rep des : dict) (w : World HW) :
  objects_for_kinds rep -> objects_for_kinds des ->
  run (for_each (pending_desired_item rep) des tt) w
  = run (reconcile_each (filter (pending rep) des)) w.
Proof.
  intros Hrep. revert w. unfold reconcile_each.
  induction des as [| [k v] des IH]; intros w Hdes; [reflexivity |].
  assert (Hdes' : objects_for_kinds des)
    by (intros k' v' Hin; apply Hdes; now right).
  rewrite run_for_each_cons, pending_item_run;
    [| assumption | intros Hk; apply (Hdes k v); [now left | assumption]].
  simpl filter. destruct (pending rep (k, v)).
  - rewrite run_for_each_cons. unfold and_then.
    rewrite process_shadow_delta_returns. now rewrite IH.
  - unfold and_then. simpl. rewrite IH by assumption.
    now destruct (run (for_each _ (filter (pending rep) des) tt) w).
Qed.

Lemma reconcile_each_returns (items : dict) (w : World HW) :
  value (run (reconcile_each items) w) = Returned tt.
Proof.
  revert w. unfold reconcile_each.
  induction items as [| item items IH]; intros w; [reflexivity |].
  rewrite run_for_each_cons. unfold and_then.
  rewrite process_shadow_delta_returns. simpl. apply IH.
Qed.

Lemma run_on_get_shadow_accepted (state : ShadowState) (w : World HW) :
  objects_for_kinds (or_empty (reported state)) ->
  objects_for_kinds (or_empty (desired state)) ->
  run (_on_get_shadow_accepted (Some state)) w
  = run (reconcile_each
           (filter (pending (or_empty (reported state)))
              (or_empty (desired state)))) w.
Proof.
  intros Hrep Hdes. unfold _on_get_shadow_accepted.
  rewrite run_try_except. unfold or_else.
  assert (Hbody :
    run (match desired state with
         | Some wanted =>
             if truthy (PDict wanted)
             then for_each (pending_desired_item (or_empty (reported state)))
                    wanted tt
             else Ret tt
         | None => Ret tt
         end) w
    = run (reconcile_each
             (filter (pending (or_empty (reported state)))
                (or_empty (desired state)))) w).
  { destruct (desired state) as [[| item des] |]; try reflexivity.
    cbn [truthy or_empty] in *. now apply pending_loop. }
  rewrite Hbody, reconcile_each_returns.
  pose proof (reconcile_each_returns
                (filter (pending (or_empty (reported state)))
                   (or_empty (desired state))) w) as Hret.
  destruct (run (reconcile_each _) w) as [val w' evs].
  simpl in Hret. now rewrite Hret.
Qed.

Lemma pending_when_reported (rep des : dict) :
  (forall k v, In (k, v) des -> is_equipment_kind k = true ->
               dict_mem k rep = true) ->
  filter (pending rep) des = filter (differs_in_both rep) des.
Proof.
  intros Hmem. apply filter_ext_in. intros [k v] Hin.
  unfold pending, differs_in_both. simpl fst. simpl snd.
  destruct (is_equipment_kind k) eqn:Hk; [| reflexivity].
  specialize (Hmem k v Hin Hk). unfold dict_mem in Hmem.
  now destruct (dict_get k rep).
Qed.
End FullDocument.

(** C4, as the code has it.  For a get-shadow response whose sections
    hold objects for the equipment kinds, the handler runs one
    reconciliation cycle, in document order, for exactly the kinds of the
    desired section whose [is_active] differs from the reported one; a
    kind missing from the reported section (or a missing section) stands
    for an empty object there.  When every desired kind is reported,
    these are the kinds present in both sections with different values.
    With desired = {blower: on, vibrofeeder: off} and reported = {blower:
    on, vibrofeeder: on} only the vibrofeeder is reconciled. *)
Theorem full_document_reconciles_pending (HW : Type) `{Gpio HW}
    (state : ShadowState) (w : World HW) :
  objects_for_kinds (or_empty (reported state)) ->
  objects_for_kinds (or_empty (desired state)) ->
  let des := or_empty (desired state) in
  let rep := or_empty (reported state) in
  run (_on_get_shadow_accepted (Some state)) w
  = run (reconcile_each (filter (pending rep) des)) w /\
  ((forall k v, In (k, v) des -> is_equipment_kind k = true ->
                dict_mem k rep = true) ->
   filter (pending rep) des = filter (differs_in_both rep) des) /\
  filter
    (pending [("blower", state_obj true); ("vibrofeeder", state_obj true)])
    [("blower", state_obj true); ("vibrofeeder", state_obj false)]
  = [("vibrofeeder", state_obj false)].
Proof.
  intros Hrep Hdes. cbv zeta. split; [| split].
  - now apply run_on_get_shadow_accepted.
  - apply pending_when_reported.
  - reflexivity.
Qed.

Lemma full_document_reconciles_pending_witness :
  events
    (run (_on_get_shadow_accepted
            (Some (mkShadowState
                     (Some [ ("blower", state_obj true);
                             ("vibrofeeder", state_obj false) ])
                     (Some [ ("blower", state_obj true);
                             ("vibrofeeder", state_obj true) ]))))
       bench)
  = [ EvOutput 27 HIGH; EvInput 27 HIGH; EvInput 27 HIGH;
      EvPublish [("vibrofeeder", state_obj false)] true ].
Proof.
  destruct (full_document_reconciles_pending
              (mkShadowState
                 (Some [ ("blower", state_obj true);
                         ("vibrofeeder", state_obj false) ])
                 (Some [ ("blower", state_obj true);
                         ("vibrofeeder", state_obj true) ]))
              bench) as (Hrun & _).
  - intros k v [Heq | [Heq | []]] _; injection Heq as <- <-;
      eexists; reflexivity.
  - intros k v [Heq | [Heq | []]] _; injection Heq as <- <-;
      eexists; reflexivity.
  - rewrite Hrun. reflexivity.
Defined.

(** C4 as the specification states it fails on the code: a kind that is
    desired but not reported at all is in no way present in both
    sections, and yet it is reconciled. *)
Lemma unreported_kind_counterexample :
  let des := [("blower", state_obj true)] in
  let state := mkShadowState (Some des) None in
  filter (differs_in_both (or_empty (reported state))) des = [] /\
  events (run (reconcile_each []) bench) = [] /\
  events (run (_on_get_shadow_accepted (Some state)) bench)
  = [ EvOutput 17 LOW; EvInput 17 LOW; EvInput 17 LOW;
      EvPublish [("blower", state_obj true)] true ].
Proof. cbv zeta. repeat split. Qed.

(** ** The readiness flag *)

Section Readiness.
Context {HW : Type} `{Gpio HW}.

(** How the phase moves. *)
Lemma step_phase (s : App HW) (i : input) :
  (app_phase (app_step s i) = app_phase s
   /\ startup_complete (app_step s i) = startup_complete s)
  \/ (app_phase s = NotStarted /\ startup_complete (app_step s i) = startup_complete s
      /\ ((i = InitBegin true /\ app_phase (app_step s i) = Waiting)
          \/ (i = InitBegin false /\ app_phase (app_step s i) = StartFailed)))
  \/ (app_phase s = Waiting /\ i = WaitElapsed
      /\ app_phase (app_step s i) = Started
      /\ startup_complete (app_step s i) = true).
Proof.
  destruct i; simpl; unfold client_started;
    destruct (app_phase s) eqn:Hp; simpl; auto;
    try (destruct client_ok; simpl; right; left; auto 6);
    try (destruct (is_equipment_kind equipment_type); simpl; auto).
  right. right. auto.
Qed.

(** The flag is up only once [start] has returned [True], and that takes a
    successful client start followed by the end of the wait. *)
Lemma ready_invariant (inputs : list input) (w : World HW) :
  let s := app_run inputs (app_init w) in
  (startup_complete s = true -> app_phase s = Started)
  /\ (app_phase s = Waiting -> In (InitBegin true) inputs)
  /\ (app_phase s = Started ->
      exists before after,
        inputs = before ++ WaitElapsed :: after
        /\ In (InitBegin true) before
        /\ app_phase (app_run before (app_init w)) = Waiting).
Proof.
  induction inputs as [| i inputs IH] using rev_ind; cbv zeta.
  - simpl. repeat split; discriminate.
  - unfold app_run in *. rewrite fold_left_app. simpl.
    cbv zeta in IH. destruct IH as (Hflag & Hwait & Hstarted).
    set (s := fold_left app_step inputs (app_init w)) in *.
    destruct (step_phase s i)
      as [[Hp Hf] | [(Hp & Hf & Hi) | (Hp & -> & Hp' & Hf)]].
    + rewrite Hp, Hf. repeat split; auto.
      * intros Hw. apply in_or_app. auto.
      * intros Hs. destruct (Hstarted Hs) as (b & a & -> & Hin & Hb).
        exists b, (a ++ [i]). rewrite <- app_assoc. auto.
    + rewrite Hf. repeat split.
      * intros Hc. apply Hflag in Hc. congruence.
      * intros Hw. destruct Hi as [[-> _] | [_ Hq]];
          [apply in_or_app; right; now left | congruence].
      * intros Hs. destruct Hi as [[_ Hq] | [_ Hq]]; congruence.
    + rewrite Hp', Hf. repeat split; try discriminate.
      intros _. exists inputs, []. auto.
Qed.
End Readiness.

(** C6, as the code has it.  The readiness flag [startup_complete] is up
    only after [start] has returned [True]: the client was created and
    started, and after that the five-second wait has ended.  Nothing in
    this ties the flag to the Startup Synchronizer. *)
Theorem ready_only_after_start (HW : Type) `{Gpio HW}
    (inputs : list input) (w : World HW) :
  startup_complete (app_run inputs (app_init w)) = true ->
  exists before after,
    inputs = before ++ WaitElapsed :: after
    /\ In (InitBegin true) before
    /\ app_phase (app_run before (app_init w)) = Waiting.
Proof.
  intros Hready.
  destruct (ready_invariant inputs w) as (Hflag & _ & Hstarted).
  apply Hstarted, Hflag, Hready.
Qed.

Lemma ready_only_after_start_witness :
  exists before after,
    [InitBegin true; ConnectionSuccess; WaitElapsed]
    = before ++ WaitElapsed :: after
    /\ In (InitBegin true) before
    /\ app_phase (app_run before (app_init bench)) = Waiting.
Proof.
  apply (ready_only_after_start
           [InitBegin true; ConnectionSuccess; WaitElapsed] bench).
  reflexivity.
Defined.

(** C6 as the specification states it fails on the code: when the
    connection fails, or is merely slower than the wait, [start] still
    returns [True] and the flag goes up although the hardware states were
    never read and no reported state was ever published. *)
Lemma ready_without_sync_counterexample :
  let failed := app_run [InitBegin true; ConnectionFailure; WaitElapsed]
                  (app_init bench) in
  let slow := app_run [InitBegin true; WaitElapsed] (app_init bench) in
  startup_complete failed = true
  /\ published (app_calls failed) = []
  /\ app_calls failed = [EvOutput 17 HIGH; EvOutput 27 HIGH]
  /\ startup_complete slow = true
  /\ published (app_calls slow) = []
  /\ published (app_calls (app_step slow ConnectionSuccess))
     = [[("blower", state_obj false); ("vibrofeeder", state_obj false)]].
Proof. cbv zeta. repeat split. Qed.

(** ** Two callers at once *)

Lemma publishes_read_back_app (a b : list event) :
  publishes_read_back a -> publishes_read_back b ->
  publishes_read_back (a ++ b).
Proof.
  intros Ha Hb before reported acked after Heq k v Hin.
  apply app_eq_app in Heq as [l [[Hl Hr] | [Hl Hr]]].
  - destruct l as [| e l]; simpl in Hr.
    + rewrite app_nil_r in Hl. subst before.
      rewrite <- (app_nil_r a). apply read_back_earlier.
      apply (Hb [] reported acked after (eq_sym Hr) k v Hin).
    + injection Hr as <- _.
      apply (Ha before reported acked l Hl k v Hin).
  - subst before. apply read_back_earlier.
    apply (Hb l reported acked after Hr k v Hin).
Qed.

Lemma tag_at (t1 t2 : thread) (e1 e2 : list event) (i : nat)
    (t : thread) (e : event) :
  nth_error (map (pair t1) e1 ++ map (pair t2) e2) i = Some (t, e) ->
  (t = t1 /\ (i < length e1)%nat) \/ (t = t2 /\ (length e1 <= i)%nat).
Proof.
  intros Hnth. destruct (Nat.lt_ge_cases i (length e1)) as [Hlt | Hge].
  - left. rewrite nth_error_app1 in Hnth by now rewrite length_map.
    rewrite nth_error_map in Hnth.
    destruct (nth_error e1 i); [| discriminate].
    injection Hnth as <- _. auto.
  - right. rewrite nth_error_app2 in Hnth by now rewrite length_map.
    rewrite nth_error_map in Hnth.
    destruct (nth_error e2 _); [| discriminate].
    injection Hnth as <- _. auto.
Qed.

Lemma serial_not_interleaved (t1 t2 : thread) (e1 e2 : list event) :
  ~ interleaved (map (pair t1) e1 ++ map (pair t2) e2).
Proof.
  intros (i & j & k & t & t' & p & l & l' & v & Hlt & Hne & Hi & Hj & Hk).
  apply tag_at in Hi, Hj, Hk.
  destruct Hi as [[-> Hi] | [-> Hi]], Hj as [[-> Hj] | [-> Hj]],
    Hk as [[Ht Hk] | [Ht Hk]]; try congruence; lia.
Qed.

Lemma untag (t : thread) (evs : list event) : map snd (map (pair t) evs) = evs.
Proof. rewrite map_map. simpl. apply map_id. Qed.

Section Serial.
Context {HW : Type} `{Gpio HW}.

(** The delta thread given all the turns it needs. *)
Lemma turns_of_first (A B : Type) (m1 : prog A) (m2 : prog B)
    (sched : list thread) (w : World HW) :
  interleave (repeat DeltaThread (length (events (run m1 w))) ++ sched) m1 m2 w
  = (map (pair DeltaThread) (events (run m1 w))
       ++ fst (interleave sched (finished (value (run m1 w))) m2
                 (world (run m1 w))),
     snd (interleave sched (finished (value (run m1 w))) m2
            (world (run m1 w)))).
Proof.
  revert w.
  induction m1 as [a | e | p l k IH | p k IH | r k IH | k IH | t k IH];
    intros w; simpl.
  - now destruct (interleave sched (Ret a) m2 w).
  - now destruct (interleave sched (Raise e) m2 w).
  - now rewrite IH.
  - now rewrite IH.
  - destruct (next_ack (acks w)) as [ok rest] eqn:Hack. simpl.
    rewrite ?Hack. now rewrite IH.
  - destruct (next_ack (acks w)) as [ok rest] eqn:Hack. simpl.
    rewrite ?Hack. now rewrite IH.
  - destruct (next_ack (acks w)) as [ok rest] eqn:Hack. simpl.
    rewrite ?Hack. now rewrite IH.
Qed.

(** The request thread given all the turns it needs. *)
Lemma turns_of_second (A B : Type) (m1 : prog A) (m2 : prog B)
    (sched : list thread) (w : World HW) :
  interleave (repeat ApiThread (length (events (run m2 w))) ++ sched) m1 m2 w
  = (map (pair ApiThread) (events (run m2 w))
       ++ fst (interleave sched m1 (finished (value (run m2 w)))
                 (world (run m2 w))),
     snd (interleave sched m1 (finished (value (run m2 w)))
            (world (run m2 w)))).
Proof.
  revert w.
  induction m2 as [a | e | p l k IH | p k IH | r k IH | k IH | t k IH];
    intros w; simpl.
  - now destruct (interleave sched m1 (Ret a) w).
  - now destruct (interleave sched m1 (Raise e) w).
  - now rewrite IH.
  - now rewrite IH.
  - destruct (next_ack (acks w)) as [ok rest] eqn:Hack. simpl.
    rewrite ?Hack. now rewrite IH.
  - destruct (next_ack (acks w)) as [ok rest] eqn:Hack. simpl.
    rewrite ?Hack. now rewrite IH.
  - destruct (next_ack (acks w)) as [ok rest] eqn:Hack. simpl.
    rewrite ?Hack. now rewrite IH.
Qed.

Lemma delta_then_api_trace (A B : Type) (m1 : prog A) (m2 : prog B)
    (w : World HW) :
  fst (interleave (delta_then_api m1 m2 w) m1 m2 w)
  = map (pair DeltaThread) (events (run m1 w))
    ++ map (pair ApiThread) (events (run m2 (world (run m1 w)))).
Proof.
  unfold delta_then_api. rewrite turns_of_first. cbn [fst].
  rewrite <- (app_nil_r (repeat ApiThread _)), turns_of_second.
  cbn [fst interleave]. now rewrite app_nil_r.
Qed.

Lemma api_then_delta_trace (A B : Type) (m1 : prog A) (m2 : prog B)
    (w : World HW) :
  fst (interleave (api_then_delta m1 m2 w) m1 m2 w)
  = map (pair ApiThread) (events (run m2 w))
    ++ map (pair DeltaThread) (events (run m1 (world (run m2 w)))).
Proof.
  unfold api_then_delta. rewrite turns_of_second. cbn [fst].
  rewrite <- (app_nil_r (repeat DeltaThread _)), turns_of_first.
  cbn [fst interleave]. now rewrite app_nil_r.
Qed.
End Serial.

(** C7, as the code has it.  The code takes no lock around its write and
    read-back.  When a delta batch and a control request are executed one
    after the other, in either order, the calls made are those of the
    two operations run in sequence, no write of one falls between a write
    and a read-back of the other, and every value published was read back
    with no write to its pin between the read and the publish. *)
Theorem serial_operations_do_not_interleave (HW : Type) `{Gpio HW}
    (delta : dict) (k : string) (d : bool) (w : World HW) :
  let reconcile := _process_shadow_delta delta in
  let control := update_equipment_state_and_shadow k d in
  let tr1 := fst (interleave (delta_then_api reconcile control w)
                    reconcile control w) in
  let tr2 := fst (interleave (api_then_delta reconcile control w)
                    reconcile control w) in
  (map snd tr1
   = events (run reconcile w) ++ events (run control (world (run reconcile w)))
   /\ ~ interleaved tr1 /\ publishes_read_back (map snd tr1))
  /\
  (map snd tr2
   = events (run control w) ++ events (run reconcile (world (run control w)))
   /\ ~ interleaved tr2 /\ publishes_read_back (map snd tr2)).
Proof.
  cbv zeta. rewrite delta_then_api_trace, api_then_delta_trace.
  rewrite !map_app, !untag.
  repeat split; try apply serial_not_interleaved;
    apply publishes_read_back_app;
    try apply process_shadow_delta_read_back; apply update_read_back.
Qed.

(** C7 as the specification states it fails on the code: nothing keeps
    the calls of two operations on the same kind apart.  In the first
    schedule the request to switch the blower off writes between the
    write and the read-back of a delta that switches it on, and the delta
    reports off on hardware that obeyed it.  In the second the delta runs
    between the read-back and the publish of the request: the blower ends
    up on while the last reported state says off. *)
Lemma concurrent_writers_counterexample :
  let reconcile := _process_shadow_delta [("blower", state_obj true)] in
  let control := update_equipment_state_and_shadow "blower" false in
  let tr1 := fst (interleave
                    [ DeltaThread; ApiThread; ApiThread; ApiThread;
                      DeltaThread; DeltaThread; DeltaThread ]
                    reconcile control bench) in
  let run2 := interleave
                [ ApiThread; ApiThread; DeltaThread; DeltaThread;
                  DeltaThread; DeltaThread; ApiThread ]
                reconcile control bench in
  tr1 = [ (DeltaThread, EvOutput 17 LOW);
          (ApiThread, EvOutput 17 HIGH);
          (ApiThread, EvInput 17 HIGH);
          (ApiThread, EvPublish [("blower", state_obj false)] true);
          (DeltaThread, EvInput 17 HIGH);
          (DeltaThread, EvInput 17 HIGH);
          (DeltaThread, EvPublish [("blower", state_obj false)] true) ]
  /\ interleaved tr1
  /\ published (map snd (fst run2))
     = [[("blower", state_obj true)]; [("blower", state_obj false)]]
  /\ gpio_input (hw (snd run2)) 17 = LOW
  /\ ~ publishes_read_back (map snd (fst run2)).
Proof.
  cbv zeta. split; [reflexivity | split; [| split; [reflexivity | split]]].
  - exists 0%nat, 1%nat, 4%nat, DeltaThread, ApiThread, 17, LOW, HIGH, HIGH.
    repeat split; try lia. discriminate.
  - reflexivity.
  - intros Hrb.
    destruct (Hrb
                [ EvOutput 17 HIGH; EvInput 17 HIGH; EvOutput 17 LOW;
                  EvInput 17 LOW; EvInput 17 LOW;
                  EvPublish [("blower", state_obj true)] true ]
                [("blower", state_obj false)] true []
                eq_refl "blower" (state_obj false) (or_introl eq_refl))
      as (cfg & lvl & before & after & Hcfg & Hv & Heq & Hquiet).
    injection Hcfg as <-. simpl in Heq, Hquiet.
    assert (Hlvl : lvl = HIGH).
    { destruct lvl; [discriminate Hv | reflexivity]. }
    subst lvl.
    destruct before as [| e1 [| e2 [| e3 [| e4 [| e5 [| e6 before]]]]]];
      simpl in Heq; try discriminate.
    + inversion Heq; subst. apply (Hquiet LOW). now left.
    + inversion Heq as [[He1 He2 He3 He4 He5 He6 Hrest]]. now destruct before.
Qed.

(** * More properties of the code *)

(** ** The latches behave *)

Lemma latch_read_write_same (h : latches) (p : pin) (l : level) :
  latch_read (latch_write h p l) p = l.
Proof.
  induction h as [| [q l'] h IH]; simpl.
  - now rewrite Z.eqb_refl.
  - destruct (q =? p) eqn:Hq; simpl; now rewrite Hq.
Qed.

Lemma latch_read_write_other (h : latches) (p q : pin) (l : level) :
  p <> q -> latch_read (latch_write h q l) p = latch_read h p.
Proof.
  intros Hne. induction h as [| [r l'] h IH]; simpl.
  - destruct (Z.eqb_spec q p); [congruence | reflexivity].
  - destruct (Z.eqb_spec r q) as [-> | Hrq]; simpl.
    + destruct (Z.eqb_spec q p); [congruence | reflexivity].
    + destruct (Z.eqb_spec r p); [reflexivity | exact IH].
Qed.

Lemma latches_read_back_writes : reads_back_writes latches.
Proof. intros h p l. apply latch_read_write_same. Qed.

Lemma latches_writes_are_local : writes_are_local latches.
Proof. intros h p q l. apply latch_read_write_other. Qed.

(** ** equipment_controller.py *)

Section Equipment.
Context {HW : Type} `{Gpio HW}.

Lemma run_get_state (k : string) (cfg : equipment) (w : World HW) :
  dict_get k equipment_config = Some cfg ->
  run (get_state k) w
  = mkResult (Returned (level_eqb (gpio_input (hw w) (eq_pin cfg)) LOW)) w
      [EvInput (eq_pin cfg) (gpio_input (hw w) (eq_pin cfg))].
Proof. intros Hcfg. unfold get_state. now rewrite Hcfg. Qed.

Lemma run_set_state (k : string) (v : pyval) (cfg : equipment)
    (w : World HW) :
  dict_get k equipment_config = Some cfg ->
  let l := level_of (truthy v) in
  let h' := gpio_output (hw w) (eq_pin cfg) l in
  run (set_state k v) w
  = mkResult (Returned (level_eqb (gpio_input h' (eq_pin cfg)) LOW))
      (mkWorld h' (acks w))
      [EvOutput (eq_pin cfg) l; EvInput (eq_pin cfg) (gpio_input h' (eq_pin cfg))].
Proof.
  intros Hcfg. unfold set_state, get_state. rewrite Hcfg.
  unfold level_of. now destruct (truthy v).
Qed.

Lemma level_of_is_low (b : bool) : level_eqb (level_of b) LOW = b.
Proof. now destruct b. Qed.
End Equipment.

(** X1.  On hardware where a pin reads what was last written to it,
    [set_state] of a valid kind returns the truth value of the
    [is_active] it was given, and a [get_state] of that kind afterwards
    returns it too. *)
Theorem set_state_returns_requested (HW : Type) `{Gpio HW}
    (k : string) (is_active : pyval) (w : World HW) :
  reads_back_writes HW ->
  is_equipment_kind k = true ->
  value (run (set_state k is_active) w) = Returned (truthy is_active) /\
  value (run (get_state k) (world (run (set_state k is_active) w)))
  = Returned (truthy is_active).
Proof.
  intros Hrb Hk. destruct (known_kind_configured k Hk) as [cfg Hcfg].
  rewrite (@run_set_state _ _ k is_active cfg w Hcfg).
  cbn [value world].
  rewrite (@run_get_state _ _ k cfg _ Hcfg). cbn [value hw].
  now rewrite Hrb, level_of_is_low.
Qed.

Lemma set_state_returns_requested_witness :
  value (run (set_state "vibrofeeder" (PStr "yes")) bench) = Returned true.
Proof.
  apply (set_state_returns_requested "vibrofeeder" (PStr "yes") bench).
  - exact latches_read_back_writes.
  - reflexivity.
Defined.

(** X2.  On hardware where a write leaves the other pins alone,
    [set_state] of one kind does not change what [get_state] returns for
    the other kind. *)
Theorem set_state_leaves_other_kind (HW : Type) `{Gpio HW}
    (k other : string) (is_active : pyval) (w : World HW) :
  writes_are_local HW ->
  is_equipment_kind k = true -> is_equipment_kind other = true ->
  other <> k ->
  value (run (get_state other) (world (run (set_state k is_active) w)))
  = value (run (get_state other) w).
Proof.
  intros Hlocal Hk Hother Hne.
  destruct (known_kind_configured k Hk) as [cfg Hcfg].
  destruct (known_kind_configured other Hother) as [cfg' Hcfg'].
  rewrite (@run_set_state _ _ k is_active cfg w Hcfg). cbn [world].
  rewrite !(@run_get_state _ _ other cfg' _ Hcfg'). cbn [value hw].
  rewrite Hlocal; [reflexivity |].
  exact (pins_differ Hcfg' Hcfg Hne).
Qed.

Lemma set_state_leaves_other_kind_witness :
  value (run (get_state "blower")
           (world (run (set_state "vibrofeeder" (PBool true)) bench)))
  = value (run (get_state "blower") bench).
Proof.
  apply (@set_state_leaves_other_kind _ _ "vibrofeeder" "blower"
           (PBool true) bench).
  - exact latches_writes_are_local.
  - reflexivity.
  - reflexivity.
  - discriminate.
Defined.

(** X3.  [get_all_states] only reads: the world is left as it was and
    every call is a pin read.  Its result lists the configured kinds in
    the order of the configuration, each with the value [get_state]
    returns for it. *)
Theorem get_all_states_reads_every_kind (HW : Type) `{Gpio HW}
    (w : World HW) :
  world (run get_all_states w) = w /\
  (forall e, In e (events (run get_all_states w)) ->
             exists p l, e = EvInput p l) /\
  exists states,
    value (run get_all_states w) = Returned states /\
    keys states = keys equipment_config /\
    forall k, is_equipment_kind k = true ->
      exists b,
        value (run (get_state k) w) = Returned b /\
        dict_get k states = Some (state_obj b).
Proof.
  rewrite run_get_all_states. cbn [world events value].
  split; [reflexivity | split].
  - intros e [<- | [<- | []]]; eauto.
  - eexists. split; [reflexivity | split; [reflexivity |]].
    intros k Hk. apply is_equipment_kind_true in Hk as [-> | ->];
      eexists; split; reflexivity.
Qed.

Lemma get_all_states_reads_every_kind_witness :
  exists b,
    value (run (get_state "blower") bench) = Returned b /\
    value (run get_all_states bench)
    = Returned [("blower", state_obj b); ("vibrofeeder", state_obj false)].
Proof.
  destruct (get_all_states_reads_every_kind bench)
    as (_ & _ & states & Hval & _ & Heach).
  destruct (Heach "blower" eq_refl) as (b & Hb & _).
  exists b. split; [exact Hb |].
  rewrite Hval. injection Hb as <-. injection Hval as <-. reflexivity.
Defined.

(** X4.  [get_equipment_info] only reads, and its entry for a kind holds
    the name and pin of the configuration together with the state
    [get_all_states] reports for that kind on the same world. *)
Theorem get_equipment_info_agrees (HW : Type) `{Gpio HW}
    (k : string) (w : World HW) :
  is_equipment_kind k = true ->
  world (run get_equipment_info w) = w /\
  exists info states cfg b,
    value (run get_equipment_info w) = Returned info /\
    value (run get_all_states w) = Returned states /\
    dict_get k equipment_config = Some cfg /\
    dict_get k states = Some (state_obj b) /\
    dict_get k info
    = Some (PDict [ ("name", PStr (eq_name cfg)); ("pin", PInt (eq_pin cfg));
                    ("is_active", PBool b) ]).
Proof.
  intros Hk. split; [reflexivity |].
  apply is_equipment_kind_true in Hk as [-> | ->];
    do 4 eexists; repeat split; reflexivity.
Qed.

Lemma get_equipment_info_agrees_witness :
  world (run get_equipment_info bench) = bench.
Proof.
  apply (get_equipment_info_agrees "blower" bench). reflexivity.
Defined.

(** X5.  [_setup_gpio] writes HIGH to the pin of every kind and nothing
    else; on hardware where a pin reads what was last written and a
    write leaves the other pins alone, every kind reads inactive
    afterwards. *)
Theorem setup_leaves_everything_off (HW : Type) `{Gpio HW} (w : World HW) :
  reads_back_writes HW -> writes_are_local HW ->
  events (run _setup_gpio w) = [EvOutput 17 HIGH; EvOutput 27 HIGH] /\
  value (run get_all_states (world (run _setup_gpio w))) = Returned all_off.
Proof.
  intros Hrb Hlocal. split; [reflexivity |].
  rewrite run_get_all_states. cbn [value]. simpl hw.
  rewrite Hrb, Hlocal by discriminate. now rewrite Hrb.
Qed.

Lemma setup_leaves_everything_off_witness :
  value (run get_all_states
           (world (run _setup_gpio (mkWorld [(17, LOW); (27, LOW)] []))))
  = Returned all_off.
Proof.
  apply (setup_leaves_everything_off (mkWorld [(17, LOW); (27, LOW)] [])).
  - exact latches_read_back_writes.
  - exact latches_writes_are_local.
Defined.

(** X6.  [cleanup] never raises and writes nothing but HIGH, once to the
    pin of every kind; on hardware that behaves every kind reads inactive
    afterwards, whatever was on before. *)
Theorem cleanup_switches_everything_off (HW : Type) `{Gpio HW}
    (w : World HW) :
  reads_back_writes HW -> writes_are_local HW ->
  value (run cleanup w) = Returned tt /\
  (forall p l, In (EvOutput p l) (events (run cleanup w)) -> l = HIGH) /\
  published (events (run cleanup w)) = [] /\
  value (run get_all_states (world (run cleanup w))) = Returned all_off.
Proof.
  intros Hrb Hlocal. repeat split.
  - intros p l Hin. simpl in Hin.
    destruct Hin as [Heq | [Heq | [Heq | [Heq | []]]]];
      try discriminate; now injection Heq as _ <-.
  - rewrite run_get_all_states. cbn [value]. simpl hw.
    rewrite Hrb, Hlocal by discriminate. now rewrite Hrb.
Qed.

Lemma cleanup_switches_everything_off_witness :
  value (run get_all_states
           (world (run cleanup (mkWorld [(17, LOW); (27, LOW)] [true]))))
  = Returned all_off.
Proof.
  apply (cleanup_switches_everything_off
           (mkWorld [(17, LOW); (27, LOW)] [true])).
  - exact latches_read_back_writes.
  - exact latches_writes_are_local.
Defined.

(** ** Connecting *)

Section Connecting.
Context {HW : Type} `{Gpio HW}.

(** A handler whose body is wrapped in [except Exception] returns. *)
Lemma guarded_returns (m : prog unit) (w : World HW) :
  value (run (try_except m (fun _ => Ret tt)) w) = Returned tt.
Proof.
  rewrite run_try_except. unfold or_else.
  destruct (value (run m w)) as [[] | e]; reflexivity.
Qed.

Lemma run_subscribe_to_shadow_topics (w : World HW) :
  run _subscribe_to_shadow_topics w
  = mkResult (Returned tt) (mkWorld (hw w) (snd (next_ack (acks w))))
      [EvSubscribe TDelta (fst (next_ack (acks w)))].
Proof.
  unfold _subscribe_to_shadow_topics, subscribe, result_of.
  destruct w as [h l]. simpl.
  destruct (next_ack l) as [ok rest]. reflexivity.
Qed.
End Connecting.

(** X7.  [_subscribe_to_shadow_topics] never raises and leaves the
    hardware alone, and the only thing it sends is the subscription
    request for the delta topic: the [.result] called on what that
    request returns raises, whatever the transport answers, so the
    subscriptions to the get-accepted and the update-accepted topics are
    never asked for. *)
Theorem only_the_delta_subscription_is_requested (HW : Type) `{Gpio HW}
    (w : World HW) :
  let r := run _subscribe_to_shadow_topics w in
  value r = Returned tt /\
  hw (world r) = hw w /\
  events r = [EvSubscribe TDelta (fst (next_ack (acks w)))] /\
  (forall ok, ~ In (EvSubscribe TGetAccepted ok) (events r)) /\
  (forall ok, ~ In (EvSubscribe TUpdateAccepted ok) (events r)).
Proof.
  cbv zeta. rewrite run_subscribe_to_shadow_topics.
  cbn [value world events hw]. repeat split; auto.
  - intros ok [Hin | []]. discriminate.
  - intros ok [Hin | []]. discriminate.
Qed.

(** X8.  [_initialize_shadow_client] never raises and never writes to
    the hardware, and its calls are, in this order and whatever the
    transport answers to each: the subscription request for the delta
    topic, the reading of the blower's pin, the reading of the
    vibrofeeder's pin, one publish of the state of both kinds as just
    read, and the request for the shadow document, sent also when that
    publish failed. *)
Theorem initialization_always_synchronizes (HW : Type) `{Gpio HW}
    (w : World HW) :
  let subscribed := next_ack (acks w) in
  let sent := next_ack (snd subscribed) in
  let asked := next_ack (snd sent) in
  run _initialize_shadow_client w
  = mkResult (Returned tt) (mkWorld (hw w) (snd asked))
      [ EvSubscribe TDelta (fst subscribed);
        EvInput 17 (gpio_input (hw w) 17);
        EvInput 27 (gpio_input (hw w) 27);
        EvPublish
          [ ("blower", state_obj (level_eqb (gpio_input (hw w) 17) LOW));
            ("vibrofeeder",
             state_obj (level_eqb (gpio_input (hw w) 27) LOW)) ]
          (fst sent);
        EvGetShadow (fst asked) ].
Proof.
  cbv zeta. unfold _initialize_shadow_client.
  rewrite run_try_except, run_bind, run_subscribe_to_shadow_topics.
  unfold and_then. cbn [value world events].
  pose proof (run_sync_shadow_with_hardware
                (mkWorld (hw w) (snd (next_ack (acks w))))) as Hsync.
  cbn [acks hw] in Hsync.
  destruct (next_ack (snd (next_ack (acks w)))) as [ok1 rest1].
  cbn [fst snd].
  destruct (next_ack rest1) as [ok2 rest2].
  rewrite Hsync. reflexivity.
Qed.

(** X9.  The callbacks and their helpers end normally for every input,
    hardware and transport: an exception inside them is caught, never
    passed on to the thread that called them. *)
Theorem callbacks_never_raise (HW : Type) `{Gpio HW} (w : World HW) :
  (forall delta,
     value (run (_on_shadow_delta_updated delta) w) = Returned tt) /\
  (forall response,
     value (run (_on_get_shadow_accepted response) w) = Returned tt) /\
  (forall delta, value (run (_process_shadow_delta delta) w) = Returned tt) /\
  (forall states,
     value (run (_update_shadow_reported_state states) w) = Returned tt) /\
  value (run _get_shadow_document w) = Returned tt /\
  value (run _sync_shadow_with_hardware w) = Returned tt /\
  value (run _subscribe_to_shadow_topics w) = Returned tt /\
  value (run _initialize_shadow_client w) = Returned tt.
Proof.
  repeat split; intros; apply guarded_returns.
Qed.

(** ** The full document, continued *)

(** X10.  A get-shadow response with nothing pending makes the handler
    do nothing at all: no pin is written or read and nothing is sent.
    That is the case of a response without a state, and of a document
    (its sections holding objects for the kinds) in which no desired
    kind has an [is_active] different from the reported one. *)
Theorem nothing_pending_nothing_done (HW : Type) `{Gpio HW}
    (state : ShadowState) (w : World HW) :
  objects_for_kinds (or_empty (reported state)) ->
  objects_for_kinds (or_empty (desired state)) ->
  filter (pending (or_empty (reported state))) (or_empty (desired state)) = [] ->
  run (_on_get_shadow_accepted None) w = mkResult (Returned tt) w [] /\
  run (_on_get_shadow_accepted (Some state)) w = mkResult (Returned tt) w [].
Proof.
  intros Hrep Hdes Hnone. split; [reflexivity |].
  rewrite (run_on_get_shadow_accepted state w Hrep Hdes), Hnone. reflexivity.
Qed.

Lemma nothing_pending_nothing_done_witness :
  run (_on_get_shadow_accepted
         (Some (mkShadowState
                  (Some [("blower", state_obj true); ("fan", PInt 1)])
                  (Some [("blower", state_obj true)]))))
    bench
  = mkResult (Returned tt) bench [].
Proof.
  apply (nothing_pending_nothing_done
           (mkShadowState
              (Some [("blower", state_obj true); ("fan", PInt 1)])
              (Some [("blower", state_obj true)]))
           bench).
  - intros k v [Heq | []] _. injection Heq as <- <-. eexists. reflexivity.
  - intros k v [Heq | [Heq | []]] Hk; injection Heq as <- <-;
      [eexists; reflexivity | discriminate Hk].
  - reflexivity.
Defined.

Section OnePublishPerKind.
Context {HW : Type} `{Gpio HW}.

Lemma reconcile_each_published (items : dict) (w : World HW) :
  (forall item, In item items ->
     is_equipment_kind (fst item) = true /\ exists d, snd item = PDict d) ->
  map (@keys pyval) (published (events (run (reconcile_each items) w)))
  = map (fun item => [fst item]) items.
Proof.
  revert w. unfold reconcile_each.
  induction items as [| [k v] items IH]; intros w Hall; [reflexivity |].
  destruct (Hall (k, v) (or_introl eq_refl)) as [Hk [d Hv]].
  simpl in Hk, Hv. subst v.
  destruct (known_kind_configured k Hk) as [cfg Hcfg].
  rewrite run_for_each_cons. unfold and_then.
  rewrite process_shadow_delta_returns. cbn [events].
  rewrite published_app, map_app.
  rewrite IH by (intros item Hin; apply Hall; now right).
  rewrite (@run_single_item_batch _ _ k d cfg w Hcfg). reflexivity.
Qed.
End OnePublishPerKind.

(** X11.  After a full document (its sections holding objects for the
    kinds) the handler publishes once per pending kind, in document
    order, and each of these publishes carries that kind alone: the
    pending kinds are not batched into one reported-state update. *)
Theorem full_document_publishes_per_kind (HW : Type) `{Gpio HW}
    (state : ShadowState) (w : World HW) :
  objects_for_kinds (or_empty (reported state)) ->
  objects_for_kinds (or_empty (desired state)) ->
  map (@keys pyval)
    (published (events (run (_on_get_shadow_accepted (Some state)) w)))
  = map (fun item => [fst item])
      (filter (pending (or_empty (reported state))) (or_empty (desired state))).
Proof.
  intros Hrep Hdes.
  rewrite (run_on_get_shadow_accepted state w Hrep Hdes).
  apply reconcile_each_published.
  intros [k v] Hin. apply filter_In in Hin as [Hin Hpending].
  unfold pending in Hpending. apply andb_true_iff in Hpending as [Hk _].
  split; [exact Hk |]. exact (Hdes k v Hin Hk).
Qed.

Lemma full_document_publishes_per_kind_witness :
  map (@keys pyval)
    (published
       (events
          (run (_on_get_shadow_accepted
                  (Some (mkShadowState
                           (Some [ ("blower", state_obj true);
                                   ("vibrofeeder", state_obj true) ])
                           None)))
             bench)))
  = [["blower"]; ["vibrofeeder"]].
Proof.
  apply (full_document_publishes_per_kind
           (mkShadowState
              (Some [ ("blower", state_obj true);
                      ("vibrofeeder", state_obj true) ])
              None)
           bench).
  - intros k v [].
  - intros k v [Heq | [Heq | []]] _; injection Heq as <- <-;
      eexists; reflexivity.
Defined.

(** ** Delta batches on hardware that behaves *)

Section BehavingHardware.
Context {HW : Type} `{Gpio HW}.

Lemma loop_reports_current (delta acc : dict) (w : World HW) (updated : dict) :
  writes_are_local HW ->
  (forall k v, In (k, v) acc -> current_reading w k v) ->
  value (delta_loop delta acc w) = Returned updated ->
  forall k v, In (k, v) updated ->
              current_reading (world (delta_loop delta acc w)) k v.
Proof.
  intros Hlocal. revert acc w.
  induction delta as [| [k0 v0] delta IH]; intros acc w Hacc Hret k v Hin.
  - simpl in *. injection Hret as <-. auto.
  - first_item acc k0 v0 w.
    + apply (IH _ _ Hacc Hret _ _ Hin).
    + discriminate.
    + refine (IH _ _ _ Hret _ _ Hin).
      intros k' v' Hin'. apply dict_set_in in Hin' as [[-> ->] | [Hne Hold]].
      * exists cfg. split; [assumption | reflexivity].
      * destruct (Hacc _ _ Hold) as (cfg' & Hcfg' & ->).
        exists cfg'. split; [assumption |]. cbn [hw].
        rewrite Hlocal; [reflexivity |].
        exact (pins_differ Hcfg' Hcfg Hne).
Qed.

Lemma loop_obeyed (delta acc : dict) (w : World HW) :
  reads_back_writes HW ->
  NoDup (keys acc ++ keys delta) ->
  (forall k v, In (k, v) delta -> is_equipment_kind k = true ->
               exists d, v = PDict d) ->
  value (delta_loop delta acc w)
  = Returned (acc ++ map requested_state (filter valid_item delta)).
Proof.
  intros Hrb. revert acc w.
  induction delta as [| [k0 v0] delta IH]; intros acc w Hnd Hobj.
  - simpl. now rewrite app_nil_r.
  - assert (Hfresh : ~ In k0 (keys acc)).
    { apply NoDup_remove_2 in Hnd. rewrite in_app_iff in Hnd. tauto. }
    assert (Hobj' : forall k v, In (k, v) delta ->
                is_equipment_kind k = true -> exists d, v = PDict d)
      by (intros; eapply Hobj; [right |]; eassumption).
    first_item acc k0 v0 w.
    + unfold valid_item at 1. simpl fst. rewrite Hk.
      apply IH; [exact (NoDup_remove_1 _ _ _ Hnd) | exact Hobj'].
    + destruct (Hobj k0 v0 (or_introl eq_refl) Hk) as [d Hd].
      now destruct (Hnd0 d).
    + unfold valid_item at 1. simpl fst. rewrite Hk. subst v0.
      rewrite dict_set_new by assumption.
      rewrite IH; [| | exact Hobj'].
      * rewrite <- app_assoc. cbn [map app]. unfold requested_state at 2.
        cbn [fst snd]. now rewrite Hrb, level_of_is_low.
      * unfold keys in *. rewrite map_app, <- app_assoc. exact Hnd.
Qed.
End BehavingHardware.

(** X12.  On hardware where a write leaves the other pins alone, the
    payload a delta batch publishes is the state of the hardware at the
    end of the batch: for every kind in it, the published value is what
    [get_state] returns right after. *)
Theorem delta_reports_final_state (HW : Type) `{Gpio HW}
    (delta : dict) (w : World HW) :
  writes_are_local HW ->
  let r := run (_process_shadow_delta delta) w in
  forall reported, In reported (published (events r)) ->
  forall k v, In (k, v) reported ->
    exists b,
      v = state_obj b /\
      value (run (get_state k) (world r)) = Returned b.
Proof.
  intros Hlocal. cbv zeta. intros reported Hrep k v Hin.
  rewrite published_of_batch in Hrep.
  rewrite run_process_shadow_delta. unfold finish_batch.
  destruct (value (delta_loop delta [] w)) as [[| item updated] | e] eqn:Hval;
    try (now destruct Hrep).
  destruct Hrep as [<- | []].
  destruct (@loop_reports_current _ _ delta [] w _ Hlocal
              (fun _ _ F => match F with end) Hval k v Hin)
    as (cfg & Hcfg & ->).
  destruct (next_ack (acks (world (delta_loop delta [] w)))) as [ok rest].
  cbn [world]. eexists. split; [reflexivity |].
  now rewrite (@run_get_state _ _ k cfg _ Hcfg).
Qed.

Lemma delta_reports_final_state_witness :
  exists b,
    state_obj true = state_obj b /\
    value (run (get_state "blower")
             (world (run (_process_shadow_delta
                            [ ("blower", state_obj true);
                              ("vibrofeeder", state_obj false) ]) bench)))
    = Returned b.
Proof.
  apply (delta_reports_final_state
           [("blower", state_obj true); ("vibrofeeder", state_obj false)]
           bench latches_writes_are_local
           [("blower", state_obj true); ("vibrofeeder", state_obj false)]).
  - left. reflexivity.
  - left. reflexivity.
Defined.

(** X13.  On hardware where a pin reads what was last written to it, a
    delta batch with distinct keys and object payloads reports what was
    asked: its one publish lists the valid keys in batch order, each
    with the truth value of its [is_active] (false when absent); without
    a valid key there is no publish. *)
Theorem delta_reports_desired_when_obeyed (HW : Type) `{Gpio HW}
    (delta : dict) (w : World HW) :
  reads_back_writes HW ->
  NoDup (keys delta) ->
  (forall k v, In (k, v) delta -> is_equipment_kind k = true ->
               exists d, v = PDict d) ->
  published (events (run (_process_shadow_delta delta) w))
  = match filter valid_item delta with
    | [] => []
    | items => [map requested_state items]
    end.
Proof.
  intros Hrb Hnd Hobj.
  rewrite published_of_batch.
  rewrite (@loop_obeyed _ _ delta [] w Hrb Hnd Hobj). cbn [app].
  now destruct (filter valid_item delta).
Qed.

Lemma delta_reports_desired_when_obeyed_witness :
  published
    (events (run (_process_shadow_delta
                    [ ("vibrofeeder", PDict [("is_active", PInt 2)]);
                      ("fan", PNone);
                      ("blower", PDict []) ])
               bench))
  = [[("vibrofeeder", state_obj true); ("blower", state_obj false)]].
Proof.
  apply (delta_reports_desired_when_obeyed
           [ ("vibrofeeder", PDict [("is_active", PInt 2)]);
             ("fan", PNone); ("blower", PDict []) ]
           bench latches_read_back_writes).
  - repeat constructor; simpl; intuition discriminate.
  - intros k v [Heq | [Heq | [Heq | []]]] Hk; injection Heq as <- <-;
      try discriminate Hk; eexists; reflexivity.
Defined.

(** X14.  The control path and a delta of one key agree: for a valid
    kind and a boolean, [update_equipment_state_and_shadow] leaves the
    hardware in the state in which [_process_shadow_delta] leaves it for
    the delta that asks the same, and both publish the same payload. *)
Theorem control_path_agrees_with_delta (HW : Type) `{Gpio HW}
    (k : string) (d : bool) (w : World HW) :
  is_equipment_kind k = true ->
  let control := run (update_equipment_state_and_shadow k d) w in
  let delta := run (_process_shadow_delta [(k, state_obj d)]) w in
  hw (world control) = hw (world delta) /\
  acks (world control) = acks (world delta) /\
  published (events control) = published (events delta).
Proof.
  intros Hk. cbv zeta.
  destruct (known_kind_configured k Hk) as [cfg Hcfg].
  rewrite (run_update_known k d w Hcfg).
  pose proof (@run_single_item_batch _ _ k [("is_active", PBool d)] cfg w Hcfg)
    as Hdelta.
  cbv zeta in Hdelta.
  change (PDict [("is_active", PBool d)]) with (state_obj d) in Hdelta.
  rewrite !Hdelta.
  cbn [world events hw acks published flat_map app].
  change (truthy (desired_active [("is_active", PBool d)])) with d.
  repeat split; reflexivity.
Qed.

Lemma control_path_agrees_with_delta_witness :
  published (events (run (update_equipment_state_and_shadow "blower" true)
                       bench))
  = published (events (run (_process_shadow_delta [("blower", state_obj true)])
                         bench)).
Proof.
  apply (control_path_agrees_with_delta "blower" true bench). reflexivity.
Defined.

(** ** Topic names *)

Lemma append_cancel_l (a b c : string) :
  (a ++ b = a ++ c)%string -> b = c.
Proof.
  induction a as [| ch a IH]; simpl; [auto |].
  intros Heq. injection Heq as Heq. auto.
Qed.

Lemma length_append (a b : string) :
  String.length (a ++ b) = (String.length a + String.length b)%nat.
Proof. induction a as [| ch a IH]; simpl; [reflexivity | now rewrite IH]. Qed.

Lemma append_cancel_r (a b s : string) :
  (a ++ s = b ++ s)%string -> a = b.
Proof.
  revert b. induction a as [| ch a IH]; intros [| ch' b] Heq; simpl in Heq.
  - reflexivity.
  - apply (f_equal String.length) in Heq. simpl in Heq.
    rewrite length_append in Heq. lia.
  - apply (f_equal String.length) in Heq. simpl in Heq.
    rewrite length_append in Heq. lia.
  - injection Heq as -> Heq. f_equal. now apply IH.
Qed.

(** X15.  The seven topic names of a thing are pairwise different, and a
    topic name tells the thing: two things that have the same name under
    the same key are the same thing. *)
Theorem shadow_topics_are_distinct (shadow_name other_name : string) :
  NoDup (map snd (_setup_shadow_topics shadow_name)) /\
  keys (_setup_shadow_topics shadow_name)
  = [ "get"; "get_accepted"; "get_rejected"; "update"; "update_accepted";
      "update_rejected"; "update_delta" ] /\
  (forall key name,
     In (key, name) (_setup_shadow_topics shadow_name) ->
     In (key, name) (_setup_shadow_topics other_name) ->
     shadow_name = other_name).
Proof.
  split; [| split; [reflexivity |]].
  - unfold _setup_shadow_topics. cbn [map snd].
    repeat constructor; cbn [In]; intros Hin;
      repeat (destruct Hin as [Hin | Hin]; [| try contradiction]);
      try contradiction;
      do 2 apply append_cancel_l in Hin; discriminate Hin.
  - intros key name Hin Hin'. unfold _setup_shadow_topics in *.
    cbn [In] in Hin, Hin'.
    repeat (destruct Hin as [Hin | Hin]; [| try contradiction]);
      try contradiction; injection Hin as <- <-;
      repeat (destruct Hin' as [Hin' | Hin']; [| try contradiction]);
      try contradiction;
      pose proof (f_equal fst Hin') as Hkey;
      pose proof (f_equal snd Hin') as Hname;
      cbn [fst snd] in Hkey, Hname; try discriminate Hkey;
      simpl in Hname; repeat (injection Hname as Hname);
      apply append_cancel_r in Hname; congruence.
Qed.


(** ** app.py: health and readiness *)

Section HealthLemmas.
Context {HW : Type} `{Gpio HW}.

Lemma step_keeps_ready (s : App HW) (i : input) :
  startup_complete s = true -> startup_complete (app_step s i) = true.
Proof.
  intros Hready.
  destruct (step_phase s i) as [[_ Hf] | [(_ & Hf & _) | (_ & _ & _ & Hf)]];
    congruence.
Qed.

Lemma started_is_ready (inputs : list input) (w : World HW) :
  app_phase (app_run inputs (app_init w)) = Started ->
  startup_complete (app_run inputs (app_init w)) = true.
Proof.
  induction inputs as [| i inputs IH] using rev_ind; [discriminate |].
  unfold app_run in *. rewrite fold_left_app. simpl.
  set (s := fold_left app_step inputs (app_init w)) in *.
  destruct (step_phase s i)
    as [[Hp Hf] | [(_ & _ & [[_ Hq] | [_ Hq]]) | (_ & _ & _ & Hf)]];
    try congruence.
  rewrite Hp, Hf. exact IH.
Qed.
End HealthLemmas.

(** X16.  The readiness flag is never taken back: once
    [startup_complete] is up it stays up whatever comes next, a
    disconnection or a failed connection included. *)
Theorem readiness_is_never_withdrawn (HW : Type) `{Gpio HW}
    (s : App HW) (inputs : list input) :
  startup_complete s = true ->
  startup_complete (app_run inputs s) = true.
Proof.
  revert s. induction inputs as [| i inputs IH]; intros s Hready;
    [exact Hready |].
  simpl. apply IH. now apply step_keeps_ready.
Qed.

Lemma readiness_is_never_withdrawn_witness :
  startup_complete
    (app_run [Disconnection; ConnectionFailure; DeltaUpdated []]
       (app_run [InitBegin true; WaitElapsed] (app_init bench)))
  = true.
Proof.
  apply (readiness_is_never_withdrawn
           (app_run [InitBegin true; WaitElapsed] (app_init bench))
           [Disconnection; ConnectionFailure; DeltaUpdated []]).
  reflexivity.
Defined.

(** X17.  Whatever has happened to the process, [health_check] answers
    "healthy" exactly when [start] has returned [True]; what became of
    the connection plays no part. *)
Theorem healthy_means_started (HW : Type) `{Gpio HW}
    (inputs : list input) (w : World HW) :
  let s := app_run inputs (app_init w) in
  health_check s = "healthy" <-> app_phase s = Started.
Proof.
  cbv zeta. unfold health_check, shadow_controller_set. split.
  - intros Hhealthy.
    destruct (startup_complete (app_run inputs (app_init w))) eqn:Hready;
      [| discriminate Hhealthy].
    now apply (ready_invariant inputs w).
  - intros Hstarted. rewrite (started_is_ready inputs w Hstarted), Hstarted.
    reflexivity.
Qed.

(** ** app.py: the request handlers *)

Lemma in_equipment_kinds_true (v : pyval) :
  in_equipment_kinds v = true ->
  exists k, v = PStr k /\ is_equipment_kind k = true.
Proof.
  unfold in_equipment_kinds. simpl. rewrite orb_false_r.
  destruct v; simpl; try discriminate.
  intros Hin. exists s. split; [reflexivity |].
  unfold is_equipment_kind. simpl. now rewrite orb_false_r.
Qed.

Section Handlers.
Context {HW : Type} `{Gpio HW}.

Lemma run_answer (r : response) (w : World HW) :
  run (try_except (Ret r)
         (fun _ => Ret (server_error "Failed to control equipment"))) w
  = mkResult (Returned r) w [].
Proof. reflexivity. Qed.

(** A request that passes every check. *)
Lemma run_control_accepted (d : dict) (k : string) (cfg : equipment)
    (requested : pyval) (w : World HW) :
  dict_get "equipment_type" d = Some (PStr k) ->
  dict_get "is_active" d = Some requested ->
  dict_get k equipment_config = Some cfg ->
  let l := level_of (truthy requested) in
  let h' := gpio_output (hw w) (eq_pin cfg) l in
  let lv := gpio_input h' (eq_pin cfg) in
  run (control_equipment true (PDict d)) w
  = mkResult
      (Returned
         (mkResponse 200 ""
            (Some (PDict [ ("equipment_type", PStr k);
                           ("requested_state", PBool (truthy requested));
                           ("actual_state", PBool (level_eqb lv LOW)) ]))))
      (mkWorld h' (snd (next_ack (acks w))))
      [ EvOutput (eq_pin cfg) l; EvInput (eq_pin cfg) lv;
        EvPublish [(k, state_obj (level_eqb lv LOW))]
          (fst (next_ack (acks w))) ].
Proof.
  intros Htype Hactive Hcfg. cbv zeta.
  assert (Hkind : in_equipment_kinds (PStr k) = true).
  { destruct (configured_cases k Hcfg) as [[-> _] | [-> _]]; reflexivity. }
  assert (Htruthy : truthy (PDict d) = true).
  { destruct d; [discriminate Htype | reflexivity]. }
  unfold control_equipment.
  cbn [negb py_in py_item]. rewrite Htruthy. cbn [negb].
  unfold dict_mem. rewrite Htype, Hactive, Hkind. cbn [negb kind_name].
  rewrite run_try_except, run_bind, (run_update_known k _ w Hcfg).
  reflexivity.
Qed.
End Handlers.

(** X18.  [control_equipment] always answers, and a request it refuses
    touches nothing: with any status but 200 no pin was written or read
    and nothing was sent.  Before the controller exists the answer is
    503; a body that is a JSON object is never answered with 500. *)
Theorem refused_requests_touch_nothing (HW : Type) `{Gpio HW}
    (shadow_controller : bool) (body : pyval) (w : World HW) :
  let r := run (control_equipment shadow_controller body) w in
  exists answer,
    value r = Returned answer /\
    (status answer <> 200 -> events r = [] /\ world r = w) /\
    (shadow_controller = false -> answer = service_unavailable) /\
    ((exists d, body = PDict d) -> status answer <> 500).
Proof.
  cbv zeta. unfold control_equipment.
  destruct shadow_controller; cbn [negb];
    [| rewrite run_answer; eexists; repeat split; intros; discriminate].
  destruct (truthy body) eqn:Htruthy; cbn [negb];
    [| rewrite run_answer; eexists; repeat split; intros; discriminate].
  destruct (py_in "equipment_type" body) as [[|] |] eqn:Hin1;
    [| rewrite run_answer; eexists; repeat split; intros; discriminate
     | rewrite run_answer; eexists; repeat split; try discriminate;
       intros [d ->]; discriminate Hin1].
  destruct (py_in "is_active" body) as [[|] |] eqn:Hin2;
    [| rewrite run_answer; eexists; repeat split; intros; discriminate
     | rewrite run_answer; eexists; repeat split; try discriminate;
       intros [d ->]; discriminate Hin2].
  destruct (py_item body "equipment_type") as [equipment_type |] eqn:Hitem1;
    [| rewrite run_answer; eexists; repeat split; try discriminate;
       intros [d ->]; simpl in Hin1, Hitem1; unfold dict_mem in Hin1;
       rewrite Hitem1 in Hin1; discriminate Hin1].
  destruct (py_item body "is_active") as [requested |] eqn:Hitem2;
    [| rewrite run_answer; eexists; repeat split; try discriminate;
       intros [d ->]; simpl in Hin2, Hitem2; unfold dict_mem in Hin2;
       rewrite Hitem2 in Hin2; discriminate Hin2].
  destruct (in_equipment_kinds equipment_type) eqn:Hkind; cbn [negb];
    [| rewrite run_answer; eexists; repeat split; intros; discriminate].
  destruct (in_equipment_kinds_true _ Hkind) as (k & -> & Hk).
  destruct (known_kind_configured k Hk) as [cfg Hcfg].
  destruct body; try discriminate Hitem1. simpl in Hitem1, Hitem2.
  pose proof (@run_control_accepted _ _ d k cfg requested w
                Hitem1 Hitem2 Hcfg) as Hrun.
  cbv zeta in Hrun. unfold control_equipment in Hrun.
  cbn [negb py_in py_item] in Hrun. rewrite Htruthy in Hrun.
  cbn [negb] in Hrun. unfold dict_mem in Hrun.
  rewrite Hitem1, Hitem2, Hkind in Hrun. cbn [negb] in Hrun.
  rewrite Hrun. cbn [value events world status].
  eexists. split; [reflexivity | split; [| split]].
  - intros Hne. now destruct Hne.
  - discriminate.
  - intros _. discriminate.
Qed.

(** X19.  A request that [control_equipment] accepts (the controller
    exists, the body is an object naming a valid kind and holding an
    [is_active]) writes the level of the truth value of [is_active],
    whatever JSON value that is, reads the pin back, publishes what it
    read and answers 200 with it as [actual_state]; this also when the
    publish fails. *)
Theorem accepted_request_reports_read_back (HW : Type) `{Gpio HW}
    (d : dict) (k : string) (requested : pyval) (w : World HW) :
  dict_get "equipment_type" d = Some (PStr k) ->
  dict_get "is_active" d = Some requested ->
  is_equipment_kind k = true ->
  let r := run (control_equipment true (PDict d)) w in
  exists cfg actual ok,
    dict_get k equipment_config = Some cfg /\
    value r
    = Returned
        (mkResponse 200 ""
           (Some (PDict [ ("equipment_type", PStr k);
                          ("requested_state", PBool (truthy requested));
                          ("actual_state", PBool actual) ]))) /\
    events r
    = [ EvOutput (eq_pin cfg) (level_of (truthy requested));
        EvInput (eq_pin cfg) (gpio_input (hw (world r)) (eq_pin cfg));
        EvPublish [(k, state_obj actual)] ok ] /\
    value (run (get_state k) (world r)) = Returned actual.
Proof.
  intros Htype Hactive Hk. cbv zeta.
  destruct (known_kind_configured k Hk) as [cfg Hcfg].
  rewrite (@run_control_accepted _ _ d k cfg requested w Htype Hactive Hcfg).
  cbn [value world events hw].
  do 3 eexists. repeat split; try eassumption.
  now rewrite (@run_get_state _ _ k cfg _ Hcfg).
Qed.

Lemma accepted_request_reports_read_back_witness :
  exists answer,
    value (run (control_equipment true
                  (PDict [ ("equipment_type", PStr "blower");
                           ("is_active", PStr "false") ]))
             (mkWorld (hw bench) []))
    = Returned answer /\
    status answer = 200.
Proof.
  destruct (@accepted_request_reports_read_back _ _
              [("equipment_type", PStr "blower"); ("is_active", PStr "false")]
              "blower" (PStr "false") (mkWorld (hw bench) [])
              eq_refl eq_refl eq_refl)
    as (cfg & actual & ok & _ & Hval & _).
  eexists. split; [exact Hval | reflexivity].
Defined.

(** X20.  [get_equipment_status] never writes a pin and sends nothing:
    before the controller exists it answers 503 without a call, after
    that 200 with the states [get_all_states] returns, having read each
    pin once. *)
Theorem equipment_status_only_reads (HW : Type) `{Gpio HW}
    (shadow_controller : bool) (w : World HW) :
  let r := run (get_equipment_status shadow_controller) w in
  world r = w /\
  (forall e, In e (events r) -> exists p l, e = EvInput p l) /\
  (shadow_controller = false ->
   value r = Returned service_unavailable /\ events r = []) /\
  (shadow_controller = true ->
   exists states,
     value (run get_all_states w) = Returned states /\
     events r = events (run get_all_states w) /\
     value r
     = Returned (mkResponse 200 "" (Some (PDict [("equipment", PDict states)])))).
Proof.
  cbv zeta. destruct shadow_controller.
  - unfold get_equipment_status, get_equipment_states. cbn [negb].
    rewrite run_try_except, run_bind, run_get_all_states.
    repeat split; try discriminate.
    + intros e [<- | [<- | []]]; eauto.
    + intros _. eexists. repeat split.
  - repeat split; try discriminate. intros e [].
Qed.

(** ** Malformed payloads *)

Section Malformed.
Context {HW : Type} `{Gpio HW}.

Lemma loop_raises_on_malformed (delta acc : dict) (w : World HW)
    (k : string) (v : pyval) :
  In (k, v) delta -> is_equipment_kind k = true -> (forall d, v <> PDict d) ->
  exists e, value (delta_loop delta acc w) = Raised e.
Proof.
  revert acc w.
  induction delta as [| [k0 v0] delta IH]; intros acc w Hin Hkind Hbad.
  - destruct Hin.
  - first_item acc k0 v0 w.
    + destruct Hin as [Heq | Hin]; [congruence |]. now apply IH.
    + eauto.
    + destruct Hin as [Heq | Hin].
      * injection Heq as -> ->. now destruct (Hbad d).
      * now apply IH.
Qed.

Lemma loop_aborts_at (pre post acc : dict) (w : World HW)
    (k : string) (v : pyval) :
  (forall k' v', In (k', v') pre -> is_equipment_kind k' = true ->
                 exists d, v' = PDict d) ->
  is_equipment_kind k = true -> (forall d, v <> PDict d) ->
  delta_loop (pre ++ (k, v) :: post) acc w
  = mkResult (Raised AttributeError)
      (world (delta_loop pre acc w)) (events (delta_loop pre acc w)).
Proof.
  revert acc w. unfold delta_loop.
  induction pre as [| [k0 v0] pre IH]; intros acc w Hobj Hkind Hbad.
  - simpl app. rewrite run_for_each_cons.
    rewrite (@item_malformed _ _ acc k v w Hkind Hbad). reflexivity.
  - assert (Hobj' : forall k' v', In (k', v') pre ->
                is_equipment_kind k' = true -> exists d, v' = PDict d)
      by (intros; eapply Hobj; [right |]; eassumption).
    simpl app. rewrite !run_for_each_cons.
    destruct (item_cases acc k0 v0 w)
      as [[Hk Hitem] | [(Hk & Hnd & Hitem) | (d & cfg & Hk & Hv & Hcfg & Hitem)]];
      cbv zeta in *; rewrite ?Hitem; unfold and_then;
      cbn [value world events run app].
    + now rewrite (IH _ _ Hobj' Hkind Hbad).
    + destruct (Hobj k0 v0 (or_introl eq_refl) Hk) as [d Hd].
      now destruct (Hnd d).
    + now rewrite (IH _ _ Hobj' Hkind Hbad).
Qed.

Lemma pending_loop_aborts_at (rep pre post : dict) (w : World HW)
    (k : string) (v : pyval) :
  objects_for_kinds rep -> objects_for_kinds pre ->
  is_equipment_kind k = true -> (forall d, v <> PDict d) ->
  run (for_each (pending_desired_item rep) (pre ++ (k, v) :: post) tt) w
  = mkResult (Raised AttributeError)
      (world (run (reconcile_each (filter (pending rep) pre)) w))
      (events (run (reconcile_each (filter (pending rep) pre)) w)).
Proof.
  intros Hrep Hpre Hkind Hbad. revert w. unfold reconcile_each.
  induction pre as [| [k0 v0] pre IH]; intros w.
  - simpl app. rewrite run_for_each_cons.
    unfold pending_desired_item. rewrite Hkind.
    destruct v; try reflexivity. now destruct (Hbad d).
  - assert (Hpre' : objects_for_kinds pre)
      by (intros k' v' Hin; apply Hpre; now right).
    simpl app. rewrite run_for_each_cons, pending_item_run;
      [| assumption | intros Hk; apply (Hpre k0 v0); [now left | assumption]].
    simpl filter. destruct (pending rep (k0, v0)).
    + rewrite run_for_each_cons. unfold and_then.
      rewrite process_shadow_delta_returns. rewrite (IH Hpre').
      reflexivity.
    + unfold and_then. cbn [value world events]. rewrite (IH Hpre').
      reflexivity.
Qed.
End Malformed.

(** X21.  A delta batch in which some valid key has a payload that is
    not an object publishes nothing.  The keys before the first such
    payload are still written: when the payloads before it are objects,
    the calls made and the hardware left behind are those of the loop
    over the keys before it, and the keys after it are never reached. *)
Theorem malformed_payload_stops_the_batch (HW : Type) `{Gpio HW}
    (pre post : dict) (k : string) (v : pyval) (w : World HW) :
  is_equipment_kind k = true -> (forall d, v <> PDict d) ->
  let r := run (_process_shadow_delta (pre ++ (k, v) :: post)) w in
  published (events r) = [] /\
  ((forall k' v', In (k', v') pre -> is_equipment_kind k' = true ->
                  exists d, v' = PDict d) ->
   events r = events (delta_loop pre [] w) /\
   world r = world (delta_loop pre [] w)).
Proof.
  intros Hkind Hbad. cbv zeta. split.
  - rewrite published_of_batch.
    destruct (@loop_raises_on_malformed _ _ (pre ++ (k, v) :: post) [] w k v)
      as [e ->]; auto.
    apply in_or_app. right. now left.
  - intros Hobj. rewrite run_process_shadow_delta. unfold finish_batch.
    rewrite (@loop_aborts_at _ _ pre post [] w k v Hobj Hkind Hbad).
    split; reflexivity.
Qed.

Lemma malformed_payload_stops_the_batch_witness :
  events (run (_process_shadow_delta
                 [ ("blower", state_obj true);
                   ("vibrofeeder", PBool true);
                   ("blower", state_obj false) ]) bench)
  = [EvOutput 17 LOW; EvInput 17 LOW; EvInput 17 LOW].
Proof.
  destruct (@malformed_payload_stops_the_batch _ _
              [("blower", state_obj true)] [("blower", state_obj false)]
              "vibrofeeder" (PBool true) bench eq_refl)
    as (_ & Hwritten).
  - discriminate.
  - destruct Hwritten as [Hevents _].
    + intros k v [Heq | []] _. injection Heq as <- <-. eexists. reflexivity.
    + exact Hevents.
Defined.

(** X22.  A full document in which the desired payload of some kind is
    not an object is handled up to that kind and no further: the kinds
    before it are reconciled as usual, the kinds after it are not looked
    at, and the handler still ends normally. *)
Theorem malformed_desired_stops_the_document (HW : Type) `{Gpio HW}
    (pre post : dict) (reported_section : option dict)
    (k : string) (v : pyval) (w : World HW) :
  objects_for_kinds (or_empty reported_section) ->
  objects_for_kinds pre ->
  is_equipment_kind k = true -> (forall d, v <> PDict d) ->
  let state := mkShadowState (Some (pre ++ (k, v) :: post)) reported_section in
  let r := run (_on_get_shadow_accepted (Some state)) w in
  let before :=
    run (reconcile_each (filter (pending (or_empty reported_section)) pre)) w in
  value r = Returned tt /\ events r = events before /\ world r = world before.
Proof.
  intros Hrep Hpre Hkind Hbad. cbv zeta.
  unfold _on_get_shadow_accepted. cbn [desired reported].
  assert (Htruthy : truthy (PDict (pre ++ (k, v) :: post)) = true)
    by now destruct pre.
  rewrite Htruthy, run_try_except.
  rewrite (@pending_loop_aborts_at _ _ (or_empty reported_section) pre post w
             k v Hrep Hpre Hkind Hbad).
  unfold or_else. cbn [value world events run].
  now rewrite app_nil_r.
Qed.

Lemma malformed_desired_stops_the_document_witness :
  events
    (run (_on_get_shadow_accepted
            (Some (mkShadowState
                     (Some [ ("blower", PInt 1);
                             ("vibrofeeder", state_obj true) ])
                     None)))
       bench)
  = [].
Proof.
  destruct (@malformed_desired_stops_the_document _ _
              [] [("vibrofeeder", state_obj true)] None
              "blower" (PInt 1) bench)
    as (_ & Hevents & _).
  - intros k v [].
  - intros k v [].
  - reflexivity.
  - discriminate.
  - exact Hevents.
Defined.
